(** * The [Board] component of the fundraiser front end

    A shallow embedding of [bboard-ui/src/components/Board.tsx]: the
    component's state cells, its three asynchronous click handlers, the
    deployment effect, the rendered controls and the address shortener,
    followed by the properties of the specification that were checked against
    them. *)

From Stdlib Require Import List Bool Arith NArith ZArith String Ascii Lia.
Import ListNotations.

Set Implicit Arguments.

(** ** JavaScript strings

    A JavaScript string is a sequence of UTF-16 code units; [String.length],
    the regular expressions without the [u] flag and [trim] all work on code
    units. *)

Definition jsstring := list N.

(** An ASCII literal of the source, as code units. *)
Definition js (s : string) : jsstring :=
  map N_of_ascii (list_ascii_of_string s).

Definition jsstring_eqb (a b : jsstring) : bool :=
  if list_eq_dec N.eq_dec a b then true else false.

(** Truthiness of a [string | undefined] value: [undefined] and the empty
    string are falsy. *)
Definition truthy (v : option jsstring) : bool :=
  match v with
  | Some (_ :: _) => true
  | _ => false
  end.

Definition in_range (lo hi c : N) : bool := (lo <=? c)%N && (c <=? hi)%N.

(** [[0-9]], which is what [\d] stands for. *)
Definition is_digit (c : N) : bool := in_range 48 57 c.

(** [[A-Fa-f0-9]]. *)
Definition is_hex (c : N) : bool :=
  in_range 65 70 c || in_range 97 102 c || in_range 48 57 c.

(** ECMAScript line terminators: LF, CR, LS, PS. *)
Definition is_line_terminator (c : N) : bool :=
  (c =? 10)%N || (c =? 13)%N || (c =? 8232)%N || (c =? 8233)%N.

(** [.] without the [s] flag: any code unit but a line terminator. *)
Definition is_dot (c : N) : bool := negb (is_line_terminator c).

(** ECMAScript white space (TAB, VT, FF, SP, NBSP, ZWNBSP and the rest of
    category Zs); [trim] strips these and the line terminators. *)
Definition is_white_space (c : N) : bool :=
  (c =? 9)%N || (c =? 11)%N || (c =? 12)%N || (c =? 32)%N || (c =? 160)%N
  || (c =? 5760)%N || in_range 8192 8202 c || (c =? 8239)%N || (c =? 8287)%N
  || (c =? 12288)%N || (c =? 65279)%N.

Definition is_trimmed_char (c : N) : bool :=
  is_white_space c || is_line_terminator c.

Fixpoint trim_start (s : jsstring) : jsstring :=
  match s with
  | c :: s' => if is_trimmed_char c then trim_start s' else s
  | [] => []
  end.

(** [String.prototype.trim]. *)
Definition trim (s : jsstring) : jsstring :=
  rev (trim_start (rev (trim_start s))).

(** The value of a string of decimal digits, most significant first: what
    [BigInt] returns on the strings that pass [/^\d+$/]. *)
Definition BigInt_of_digits (s : jsstring) : Z :=
  fold_left (fun acc c => (10 * acc + (Z.of_N c - 48))%Z) s 0%Z.

(** ** Regular expressions

    The fragment of the ECMAScript syntax that the two literals of the source
    use: a character class repeated a fixed number of times, a greedy star or
    plus on a class, numbered capture groups, concatenation and the two
    anchors. *)

Inductive regex : Type :=
| Times (p : N -> bool) (n : nat)
| Star (p : N -> bool)
| Plus (p : N -> bool)
| Capture (g : nat) (r : regex)
| Seq (r1 r2 : regex)
| Bos
| Eos.

(** The captures of a match, by group number. *)
Definition captures := list (nat * jsstring).

Fixpoint capture_get (g : nat) (cs : captures) : jsstring :=
  match cs with
  | (g', s) :: cs' => if Nat.eqb g g' then s else capture_get g cs'
  | [] => []
  end.

(** The result of a successful match: the index just after it and its
    captures. *)
Definition match_result : Type := nat * captures.

(** A backtracking matcher in continuation-passing style. The matcher is at
    index [i] of the subject, [s] is what is left of it from there, and [k]
    matches the rest of the pattern. *)

Fixpoint times (p : N -> bool) (n : nat) (s : jsstring) (i : nat)
    (k : jsstring -> nat -> option match_result) : option match_result :=
  match n with
  | O => k s i
  | S n' =>
      match s with
      | c :: s' => if p c then times p n' s' (S i) k else None
      | [] => None
      end
  end.

(** Greedy: the longest run is tried first, then shorter ones. *)
Fixpoint star (p : N -> bool) (s : jsstring) (i : nat)
    (k : jsstring -> nat -> option match_result) : option match_result :=
  match s with
  | c :: s' =>
      if p c then
        match star p s' (S i) k with
        | Some r => Some r
        | None => k s i
        end
      else k s i
  | [] => k s i
  end.

Definition plus (p : N -> bool) (s : jsstring) (i : nat)
    (k : jsstring -> nat -> option match_result) : option match_result :=
  match s with
  | c :: s' => if p c then star p s' (S i) k else None
  | [] => None
  end.

Fixpoint rmatch (r : regex) (s : jsstring) (i : nat) (cs : captures)
    (k : jsstring -> nat -> captures -> option match_result)
    : option match_result :=
  match r with
  | Times p n => times p n s i (fun s' i' => k s' i' cs)
  | Star p => star p s i (fun s' i' => k s' i' cs)
  | Plus p => plus p s i (fun s' i' => k s' i' cs)
  | Capture g r' =>
      rmatch r' s i cs
        (fun s' i' cs' => k s' i' ((g, firstn (i' - i) s) :: cs'))
  | Seq r1 r2 =>
      rmatch r1 s i cs (fun s' i' cs' => rmatch r2 s' i' cs' k)
  | Bos => if Nat.eqb i 0 then k s i cs else None
  | Eos => match s with [] => k s i cs | _ :: _ => None end
  end.

(** One attempt to match [r] at index [i] of [s]. *)
Definition exec_at (r : regex) (s : jsstring) (i : nat) : option match_result :=
  rmatch r (skipn i s) i [] (fun _ i' cs => Some (i', cs)).

(** [RegExp.prototype.test] of a pattern without flags: the first index, from
    0 to the length of the subject, at which the pattern matches. *)
Fixpoint search_from (r : regex) (s : jsstring) (i : nat) (n : nat) : bool :=
  match exec_at r s i with
  | Some _ => true
  | None =>
      match n with
      | O => false
      | S n' => search_from r s (S i) n'
      end
  end.

Definition regex_test (r : regex) (s : jsstring) : bool :=
  search_from r s 0 (List.length s).

(** A replacement template: literal text and [$n] references. *)
Inductive template_item : Type :=
| Lit (t : jsstring)
| Ref (g : nat).

Definition expand (tpl : list template_item) (cs : captures) : jsstring :=
  flat_map (fun it => match it with
                      | Lit t => t
                      | Ref g => capture_get g cs
                      end) tpl.

(** [String.prototype.replace] with a pattern that has the [g] flag: the
    matches are looked for from left to right, each search starting where the
    previous match ended (one unit further after an empty match) and none
    starting beyond the end of the subject; the text between matches is kept.
    [n] bounds the number of positions left. *)
Fixpoint replace_from (r : regex) (tpl : list template_item) (s : jsstring)
    (i : nat) (n : nat) : jsstring :=
  match n with
  | O => skipn i s
  | S n' =>
      if Nat.ltb (List.length s) i then []
      else
        match exec_at r s i with
        | Some (e, cs) =>
            if Nat.eqb e i
            then expand tpl cs ++ firstn 1 (skipn i s)
                   ++ replace_from r tpl s (S i) n'
            else expand tpl cs ++ replace_from r tpl s e n'
        | None =>
            match skipn i s with
            | c :: _ => c :: replace_from r tpl s (S i) n'
            | [] => []
            end
        end
  end.

Definition replace_all (r : regex) (tpl : list template_item) (s : jsstring)
    : jsstring :=
  replace_from r tpl s 0 (S (List.length s)).

(** [/^\d+$/] *)
Definition goal_regex : regex := Seq Bos (Seq (Plus is_digit) Eos).

(** [/^[A-Fa-f0-9]{6}([A-Fa-f0-9]{8}).*([A-Fa-f0-9]{8})$/g] *)
Definition address_regex : regex :=
  Seq Bos
    (Seq (Times is_hex 6)
       (Seq (Capture 1 (Times is_hex 8))
          (Seq (Star is_dot)
             (Seq (Capture 2 (Times is_hex 8)) Eos)))).

(** ['$1...$2'] *)
Definition address_template : list template_item :=
  [Ref 1; Lit (js "..."); Ref 2].

(** [toShortFormatContractAddress]: the text of the [span] it returns, or
    [None] for [undefined]. *)
Definition toShortFormatContractAddress (contractAddress : option jsstring)
    : option jsstring :=
  if truthy contractAddress then
    match contractAddress with
    | Some a => Some (js "0x" ++ replace_all address_regex address_template a)
    | None => None
    end
  else None.

(** ** Collaborators

    The component talks to a deployment provider, to the API of a deployed
    contract and to the wallet SDK. None of them is part of the component;
    what a call to one of them does is an input of the model, what the
    component asks of them is recorded. *)

(** Modelled from the spec: the contract's [State] enumeration
    ([contract/src/index]), which the data model gives as vacant or
    occupied. *)
Inductive State : Type := VACANT | OCCUPIED.

Definition State_eqb (a b : State) : bool :=
  match a, b with
  | VACANT, VACANT | OCCUPIED, OCCUPIED => true
  | _, _ => false
  end.

(** Modelled from the spec: [BBoardDerivedState] ([api/src/index]), with the
    fields that the component reads from a snapshot. *)
Module Derived.
Record t : Type := mk {
  state : State;
  title : jsstring;
  goal : Z;
  message : jsstring;
  isOwner : bool
}.
End Derived.
Definition BBoardDerivedState : Type := Derived.t.

(** Modelled from the spec: [DeployedBBoardAPI] ([api/src/index]). [api_id]
    stands for the identity of the object, which is what React compares; the
    methods are the calls below. *)
Record DeployedBBoardAPI : Type := mkAPI {
  api_id : nat;
  deployedContractAddress : jsstring
}.

Definition DeployedBBoardAPI_eqb (a b : DeployedBBoardAPI) : bool :=
  Nat.eqb (api_id a) (api_id b)
  && jsstring_eqb (deployedContractAddress a) (deployedContractAddress b).

(** Modelled from the spec: [BoardDeployment] ([../contexts]), the values of
    the deployment stream, told apart by their [status]. *)
Inductive BoardDeployment : Type :=
| InProgress
| Failed (error_message : jsstring)
| Deployed (api : DeployedBBoardAPI).

(** A thrown value or rejection reason: an [Error] with its message, or
    anything else with its [String(...)] conversion. The values for which
    [String(...)] itself throws (an object without a usable [toString]) are
    not among them: what the handlers do with such a value is not
    modelled. *)
Inductive Thrown : Type :=
| ErrorObject (message : jsstring)
| OtherValue (asString : jsstring).

(** [error instanceof Error ? error.message : String(error)] *)
Definition thrown_text (error : Thrown) : jsstring :=
  match error with
  | ErrorObject m => m
  | OtherValue s => s
  end.

(** How a call ends: it returns (the promise resolves) or it throws (the
    promise rejects). *)
Inductive Outcome (A : Type) : Type :=
| Resolved (a : A)
| Rejected (error : Thrown).
Arguments Resolved {A} a.
Arguments Rejected {A} error.

(** The wallet object that [WalletBuilder.build] resolves to, by identity. *)
Definition Wallet := nat.

Inductive NetworkId : Type := Undeployed | DevNet | TestNet | MainNet.

(** The arguments of [WalletBuilder.build]. *)
Record WalletConfig : Type := mkWalletConfig {
  indexerUri : jsstring;
  indexerWsUri : jsstring;
  proverServerUri : jsstring;
  substrateNodeUri : jsstring;
  seed : jsstring;
  networkId : NetworkId
}.

Record WalletState : Type := mkWalletState { address : jsstring }.

(** What the component asks of its collaborators, and of the console. *)
Inductive Call : Type :=
| GetWalletAddress
| ConsoleLog (walletState : WalletState) (walletAddress : jsstring)
| Post (api : DeployedBBoardAPI) (title message : jsstring) (goal : Z)
    (ownerAddress : jsstring)
| WalletBuild (config : WalletConfig)
| WalletStart (wallet : Wallet)
| ContributeWithWallet (api : DeployedBBoardAPI) (wallet : Wallet) (amount : Z)
| TakeDown (api : DeployedBBoardAPI)
| Resolve (contractAddress : option jsstring)
| ClipboardWriteText (data : jsstring).

(** How the collaborators answer during one run of a handler. Each handler
    makes each of its calls at most once. *)
Record World : Type := mkWorld {
  getWalletAddress_result : Outcome WalletState;
  post_result : Outcome unit;
  build_result : Outcome Wallet;
  start_result : Outcome unit;
  contribute_result : Outcome unit;
  takeDown_result : Outcome unit;
  resolve_result : Outcome unit;
  writeText_result : Outcome unit
}.

(** ** The state cells of the component *)

Record Cells : Type := mkCells {
  boardDeployment : option BoardDeployment;
  deployedBoardAPI : option DeployedBBoardAPI;
  errorMessage : option jsstring;
  boardState : option BBoardDerivedState;
  messagePrompt : option jsstring;
  titlePrompt : option jsstring;
  goalPrompt : option jsstring;
  isWorking : bool
}.

Definition set_boardDeployment (v : BoardDeployment) (c : Cells) : Cells :=
  mkCells (Some v) (deployedBoardAPI c) (errorMessage c) (boardState c)
    (messagePrompt c) (titlePrompt c) (goalPrompt c) (isWorking c).

Definition set_deployedBoardAPI (v : DeployedBBoardAPI) (c : Cells) : Cells :=
  mkCells (boardDeployment c) (Some v) (errorMessage c) (boardState c)
    (messagePrompt c) (titlePrompt c) (goalPrompt c) (isWorking c).

Definition set_errorMessage (v : jsstring) (c : Cells) : Cells :=
  mkCells (boardDeployment c) (deployedBoardAPI c) (Some v) (boardState c)
    (messagePrompt c) (titlePrompt c) (goalPrompt c) (isWorking c).

Definition set_boardState (v : BBoardDerivedState) (c : Cells) : Cells :=
  mkCells (boardDeployment c) (deployedBoardAPI c) (errorMessage c) (Some v)
    (messagePrompt c) (titlePrompt c) (goalPrompt c) (isWorking c).

Definition set_messagePrompt (v : jsstring) (c : Cells) : Cells :=
  mkCells (boardDeployment c) (deployedBoardAPI c) (errorMessage c)
    (boardState c) (Some v) (titlePrompt c) (goalPrompt c) (isWorking c).

Definition set_titlePrompt (v : jsstring) (c : Cells) : Cells :=
  mkCells (boardDeployment c) (deployedBoardAPI c) (errorMessage c)
    (boardState c) (messagePrompt c) (Some v) (goalPrompt c) (isWorking c).

Definition set_goalPrompt (v : jsstring) (c : Cells) : Cells :=
  mkCells (boardDeployment c) (deployedBoardAPI c) (errorMessage c)
    (boardState c) (messagePrompt c) (titlePrompt c) (Some v) (isWorking c).

Definition set_isWorking (v : bool) (c : Cells) : Cells :=
  mkCells (boardDeployment c) (deployedBoardAPI c) (errorMessage c)
    (boardState c) (messagePrompt c) (titlePrompt c) (goalPrompt c) v.

(** ** Handlers as computations

    A handler updates the cells, calls collaborators and may throw. Each call
    is recorded together with the cells as they are while it is pending. *)

Record Observed : Type := mkObserved { call : Call; during : Cells }.

Definition Trace := list Observed.

Definition Async (A : Type) : Type :=
  Cells -> Trace -> Outcome A * Cells * Trace.

Definition ret {A : Type} (a : A) : Async A :=
  fun c tr => (Resolved a, c, tr).

Definition bind {A B : Type} (m : Async A) (f : A -> Async B) : Async B :=
  fun c tr =>
    match m c tr with
    | (Resolved a, c', tr') => f a c' tr'
    | (Rejected e, c', tr') => (Rejected e, c', tr')
    end.

Declare Scope async_scope.
Delimit Scope async_scope with async.
Notation "x <- m ;; k" := (bind m (fun x => k))
  (at level 61, m at next level, right associativity) : async_scope.
Notation "m ;;; k" := (bind m (fun _ => k))
  (at level 61, right associativity) : async_scope.
Open Scope async_scope.

(** A state setter of [useState]. *)
Definition update (f : Cells -> Cells) : Async unit :=
  fun c tr => (Resolved tt, f c, tr).

Definition setErrorMessage (v : jsstring) : Async unit :=
  update (set_errorMessage v).
Definition setIsWorking (v : bool) : Async unit :=
  update (set_isWorking v).

(** A call to a collaborator, awaited or not, that ends as [o]. *)
Definition invoke {A : Type} (what : Call) (o : Outcome A) : Async A :=
  fun c tr => (o, c, tr ++ [mkObserved what c]).

(** [try { body } catch (error) { handler } finally { cleanup }] *)
Definition try_catch_finally {A : Type} (body : Async A)
    (handler : Thrown -> Async A) (cleanup : Async unit) : Async A :=
  fun c tr =>
    let '(r1, c1, tr1) := body c tr in
    let '(r2, c2, tr2) :=
      match r1 with
      | Resolved a => (Resolved a, c1, tr1)
      | Rejected e => handler e c1 tr1
      end in
    let '(r3, c3, tr3) := cleanup c2 tr2 in
    match r3 with
    | Resolved _ => (r2, c3, tr3)
    | Rejected e => (Rejected e, c3, tr3)
    end.

(** The text of a [string | undefined] that is known to be a string. *)
Definition text (v : option jsstring) : jsstring :=
  match v with
  | Some s => s
  | None => []
  end.

Definition fill_in_all_fields : jsstring :=
  js "Please fill in all fields (title, goal, and message)".

Definition enter_a_valid_goal : jsstring :=
  js "Please enter a valid positive integer for the funding goal".

Definition unexpected_error : jsstring :=
  js "Encountered an unexpected error.".

(** The variables of the component that [onPostMessage] closes over. *)
Record PostClosure : Type := mkPostClosure {
  seen_titlePrompt : option jsstring;
  seen_messagePrompt : option jsstring;
  seen_goalPrompt : option jsstring;
  seen_deployedBoardAPI : option DeployedBBoardAPI
}.

(** The two callbacks of the empty card: they hand over to the provider of
    deployments and do nothing else. *)
Definition onCreateBoard (w : World) : Async unit :=
  invoke (Resolve None) (resolve_result w).

Definition onJoinBoard (contractAddress : jsstring) (w : World) : Async unit :=
  invoke (Resolve (Some contractAddress)) (resolve_result w).

Definition onPostMessage (env : PostClosure) (w : World) : Async unit :=
  if negb (truthy (seen_titlePrompt env))
     || negb (truthy (seen_messagePrompt env))
     || negb (truthy (seen_goalPrompt env))
  then setErrorMessage fill_in_all_fields
  else
    let goalInput := option_map trim (seen_goalPrompt env) in
    if negb (truthy goalInput) || negb (regex_test goal_regex (text goalInput))
    then setErrorMessage enter_a_valid_goal
    else
      try_catch_finally
        (match seen_deployedBoardAPI env with
         | Some api =>
             walletState <- invoke GetWalletAddress (getWalletAddress_result w) ;;
             let walletAddress := address walletState in
             invoke (ConsoleLog walletState walletAddress) (Resolved tt) ;;;
             setIsWorking true ;;;
             invoke (Post api (text (seen_titlePrompt env))
                       (text (seen_messagePrompt env))
                       (BigInt_of_digits (text goalInput)) walletAddress)
                    (post_result w)
         | None => ret tt
         end)
        (fun error => setErrorMessage (thrown_text error))
        (setIsWorking false).

(** The arguments that [onSendToken] passes to [WalletBuilder.build]. *)
Definition testnet_config : WalletConfig :=
  mkWalletConfig
    (js "https://indexer.testnet-02.midnight.network/api/v1/graphql")
    (js "wss://indexer.testnet-02.midnight.network/api/v1/graphql/ws")
    (js "http://localhost:6300")
    (js "https://rpc.testnet-02.midnight.network")
    (js "0000000000000000000000000000000000000000000000000000000000000000")
    TestNet.

Definition onSendToken (deployedBoardAPI : option DeployedBBoardAPI)
    (w : World) : Async unit :=
  try_catch_finally
    (match deployedBoardAPI with
     | Some api =>
         wallet <- invoke (WalletBuild testnet_config) (build_result w) ;;
         invoke (WalletStart wallet) (start_result w) ;;;
         invoke (ContributeWithWallet api wallet 1%Z) (contribute_result w)
     | None => ret tt
     end)
    (fun error => setErrorMessage (thrown_text error))
    (setIsWorking false).

Definition onDeleteMessage (deployedBoardAPI : option DeployedBBoardAPI)
    (w : World) : Async unit :=
  try_catch_finally
    (match deployedBoardAPI with
     | Some api =>
         setIsWorking true ;;;
         invoke (TakeDown api) (takeDown_result w)
     | None => ret tt
     end)
    (fun error => setErrorMessage (thrown_text error))
    (setIsWorking false).

Definition onCopyContractAddress (deployedBoardAPI : option DeployedBBoardAPI)
    (w : World) : Async unit :=
  match deployedBoardAPI with
  | Some api =>
      invoke (ClipboardWriteText (deployedContractAddress api))
        (writeText_result w)
  | None => ret tt
  end.

(** ** The component

    Besides its cells the component has its [boardDeployment$] property and
    the memoised callbacks. [useCallback] keeps the function of an earlier
    render until one of the listed dependencies changes. [onSendToken],
    [onDeleteMessage] and [onCopyContractAddress] read nothing but
    [deployedBoardAPI], which they list, so they always see the current one.
    [onPostMessage] lists [deployedBoardAPI] and [messagePrompt] but also
    reads [titlePrompt] and [goalPrompt]: its closure is kept here as it was
    when the callback was last created. The property and the provider of
    deployments are taken not to change while the component is mounted. *)

Record Board : Type := mkBoard {
  has_boardDeployment_stream : bool;
  cells : Cells;
  onPostMessage_closure : PostClosure
}.

Definition capture (c : Cells) : PostClosure :=
  mkPostClosure (titlePrompt c) (messagePrompt c) (goalPrompt c)
    (deployedBoardAPI c).

Definition option_eqb {A : Type} (eqb : A -> A -> bool) (a b : option A)
    : bool :=
  match a, b with
  | Some x, Some y => eqb x y
  | None, None => true
  | _, _ => false
  end.

(** The dependency list of [onPostMessage], compared with the one of the render
    that created the callback in use (the setters never change). *)
Definition same_dependencies (env : PostClosure) (c : Cells) : bool :=
  option_eqb DeployedBBoardAPI_eqb (seen_deployedBoardAPI env)
    (deployedBoardAPI c)
  && option_eqb jsstring_eqb (seen_messagePrompt env) (messagePrompt c).

(** A render after the cells have become [c]. *)
Definition rerender (b : Board) (c : Cells) : Board :=
  mkBoard (has_boardDeployment_stream b) c
    (if same_dependencies (onPostMessage_closure b) c
     then onPostMessage_closure b
     else capture c).

Definition initial_cells (stream : bool) : Cells :=
  mkCells None None None None None None None stream.

(** The first render: [useState(!!boardDeployment$)] for the working flag,
    nothing in the other cells. *)
Definition mount (stream : bool) : Board :=
  mkBoard stream (initial_cells stream) (capture (initial_cells stream)).

(** The second effect, run when the deployment stream has delivered [d]. *)
Definition deployment_effect (d : BoardDeployment) (c : Cells) : Cells :=
  match d with
  | InProgress => c
  | Failed error_message =>
      set_errorMessage
        (if Nat.eqb (List.length error_message) 0
         then unexpected_error
         else error_message)
        (set_isWorking false c)
  | Deployed api => set_deployedBoardAPI api (set_isWorking false c)
  end.

(** [boardState?.state === v] *)
Definition state_is (boardState : option BBoardDerivedState) (v : State)
    : bool :=
  match boardState with
  | Some s => State_eqb (Derived.state s) v
  | None => false
  end.

(** The [disabled] properties of the three action buttons. *)
Definition sendTokens_disabled (c : Cells) : bool :=
  state_is (boardState c) OCCUPIED || negb (truthy (goalPrompt c)).

Definition postMessage_disabled (c : Cells) : bool :=
  state_is (boardState c) OCCUPIED || negb (truthy (messagePrompt c)).

Definition takeDown_disabled (c : Cells) : bool :=
  state_is (boardState c) VACANT
  || match boardState c with
     | Some s => State_eqb (Derived.state s) OCCUPIED && negb (Derived.isOwner s)
     | None => false
     end.

(** The avatar of the card header. *)
Inductive Avatar : Type := LockOpenIcon | LockIcon | AvatarSkeleton.

(** What the card shows. Everything but [emptyCard] is rendered only when
    there is a deployment stream. *)
Record View : Type := mkView {
  emptyCard : bool;
  workingIndicator : bool;
  errorBackdrop : bool;
  errorText : jsstring;
  avatar : Avatar;
  cardTitle : jsstring;
  copyButton : bool;
  promptFields : bool;
  actionButtons : bool;
  sendTokensEnabled : bool;
  postMessageEnabled : bool;
  takeDownEnabled : bool
}.

Definition render (b : Board) : View :=
  let c := cells b in
  let stream := has_boardDeployment_stream b in
  let api := match deployedBoardAPI c with Some _ => true | None => false end in
  mkView
    (negb stream)
    (stream && isWorking c)
    (stream && truthy (errorMessage c))
    (text (errorMessage c))
    (match boardState c with
     | Some s =>
         if State_eqb (Derived.state s) VACANT
            || (State_eqb (Derived.state s) OCCUPIED && Derived.isOwner s)
         then LockOpenIcon else LockIcon
     | None => AvatarSkeleton
     end)
    (match toShortFormatContractAddress
             (option_map deployedContractAddress (deployedBoardAPI c)) with
     | Some t => t
     | None => js "Loading..."
     end)
    (stream && truthy (option_map deployedContractAddress (deployedBoardAPI c)))
    (stream && match boardState c with
               | Some s => negb (State_eqb (Derived.state s) OCCUPIED)
               | None => false
               end)
    (stream && api)
    (stream && api && negb (sendTokens_disabled c))
    (stream && api && negb (postMessage_disabled c))
    (stream && api && negb (takeDown_disabled c)).

(** What can happen to a mounted component. *)
Inductive Event : Type :=
| DeploymentEmits (d : BoardDeployment)
| StateEmits (s : BBoardDerivedState)
| TitleInput (v : jsstring)
| GoalInput (v : jsstring)
| MessageInput (v : jsstring)
| ClickCreate (w : World)
| ClickJoin (contractAddress : jsstring) (w : World)
| ClickCopy (w : World)
| ClickSendTokens (w : World)
| ClickPostMessage (w : World)
| ClickTakeDown (w : World).

(** Whether the event can happen: the stream is subscribed to, or the control
    is on the card and not disabled. *)
Definition enabled (b : Board) (e : Event) : bool :=
  let v := render b in
  match e with
  | DeploymentEmits _ => has_boardDeployment_stream b
  | StateEmits _ =>
      has_boardDeployment_stream b
      && match boardDeployment (cells b) with
         | Some (Deployed _) => true
         | _ => false
         end
  | TitleInput _ | GoalInput _ | MessageInput _ => promptFields v
  | ClickCreate _ | ClickJoin _ _ => emptyCard v
  | ClickCopy _ => copyButton v
  | ClickSendTokens _ => sendTokensEnabled v
  | ClickPostMessage _ => postMessageEnabled v
  | ClickTakeDown _ => takeDownEnabled v
  end.

(** The cells after a handler has run to its end, and the calls it made. *)
Definition run (h : Async unit) (c : Cells) : Cells * Trace :=
  match h c [] with
  | (_, c', tr) => (c', tr)
  end.

Definition react (b : Board) (e : Event) : Cells * Trace :=
  let c := cells b in
  match e with
  | DeploymentEmits d => (deployment_effect d (set_boardDeployment d c), [])
  | StateEmits s => (set_boardState s c, [])
  | TitleInput v => (set_titlePrompt v c, [])
  | GoalInput v => (set_goalPrompt v c, [])
  | MessageInput v => (set_messagePrompt v c, [])
  | ClickCreate w => run (onCreateBoard w) c
  | ClickJoin contractAddress w => run (onJoinBoard contractAddress w) c
  | ClickCopy w => run (onCopyContractAddress (deployedBoardAPI c) w) c
  | ClickSendTokens w => run (onSendToken (deployedBoardAPI c) w) c
  | ClickPostMessage w => run (onPostMessage (onPostMessage_closure b) w) c
  | ClickTakeDown w => run (onDeleteMessage (deployedBoardAPI c) w) c
  end.

(** One event: the cells change, then the component renders again. *)
Definition step (b : Board) (e : Event) : Board :=
  rerender b (fst (react b e)).

Definition steps (b : Board) (es : list Event) : Board :=
  fold_left step es b.

(** Every event of [es] can happen when its turn comes. *)
Fixpoint feasible (b : Board) (es : list Event) : bool :=
  match es with
  | [] => true
  | e :: es' => enabled b e && feasible (step b e) es'
  end.

(** The event is not a [failed] or [deployed] emission of the deployment
    stream. *)
Definition keeps_deployment_pending (e : Event) : bool :=
  match e with
  | DeploymentEmits InProgress => true
  | DeploymentEmits _ => false
  | _ => true
  end.

(** ** Vocabulary of the properties *)

(** Nothing has been entered: the prompt is [undefined] or the empty
    string. *)
Definition blank (v : option jsstring) : Prop := v = None \/ v = Some [].

(** A non-empty string of decimal digits, which is what [^\d+$] describes. *)
Definition decimal (s : jsstring) : Prop :=
  s <> [] /\ forallb is_digit s = true.


(** The calls of a trace, in order. *)
Definition calls (tr : Trace) : list Call := map call tr.

(** Collaborators that all answer: the wallet address is [addr], the wallet
    built is wallet 0. *)
Definition all_resolve : World :=
  mkWorld (Resolved (mkWalletState (js "addr"))) (Resolved tt) (Resolved 0)
    (Resolved tt) (Resolved tt) (Resolved tt) (Resolved tt) (Resolved tt).

Definition api0 : DeployedBBoardAPI :=
  mkAPI 0 (js "0200e1b2c3d4a5f60718293a4b5c6d7e8f90").

Definition vacant_snapshot : BBoardDerivedState :=
  Derived.mk VACANT [] 0%Z [] false.

(** The component is mounted on a deployment stream that has not come to an
    end: it is working, and it has neither an API handle nor a snapshot. *)
Definition awaiting (b : Board) : Prop :=
  has_boardDeployment_stream b = true
  /\ isWorking (cells b) = true
  /\ deployedBoardAPI (cells b) = None
  /\ boardState (cells b) = None
  /\ (boardDeployment (cells b) = None
      \/ boardDeployment (cells b) = Some InProgress).

(** The addresses that the address pattern matches: at least 22 code units,
    hex digits in the first 14 and the last 8 places, no line terminator
    between them. *)
Definition address_shape (s : jsstring) : bool :=
  (22 <=? List.length s)
  && forallb is_hex (firstn 14 s)
  && forallb is_dot (firstn (List.length s - 22) (skipn 14 s))
  && forallb is_hex (skipn (List.length s - 8) s).

(** The cells of [c'] that hold what the component knows and what the user
    typed are those of [c]: only the error message and the working flag may
    differ. *)
Definition same_form (c c' : Cells) : Prop :=
  boardDeployment c' = boardDeployment c
  /\ deployedBoardAPI c' = deployedBoardAPI c
  /\ boardState c' = boardState c
  /\ messagePrompt c' = messagePrompt c
  /\ titlePrompt c' = titlePrompt c
  /\ goalPrompt c' = goalPrompt c.

(** The event is a click on a button. *)
Definition is_click (e : Event) : bool :=
  match e with
  | ClickCreate _ | ClickJoin _ _ | ClickCopy _
  | ClickSendTokens _ | ClickPostMessage _ | ClickTakeDown _ => true
  | _ => false
  end.

(** All the calls that the component makes while the events [es] happen. *)
Fixpoint history (b : Board) (es : list Event) : list Call :=
  match es with
  | [] => []
  | e :: es' => calls (snd (react b e)) ++ history (step b e) es'
  end.

Definition is_resolve (k : Call) : bool :=
  match k with
  | Resolve _ => true
  | _ => false
  end.

(** The callback in use was created by a render with the current message and
    API handle. *)
Definition in_sync (b : Board) : Prop :=
  same_dependencies (onPostMessage_closure b) (cells b) = true.

(** As long as there is no snapshot nothing has been typed. *)
Definition untyped_without_snapshot (b : Board) : Prop :=
  boardState (cells b) = None ->
  messagePrompt (cells b) = None
  /\ titlePrompt (cells b) = None
  /\ goalPrompt (cells b) = None.

(** * Properties *)

(** ** Sanity checks of the embedding *)

Example short_address_example :
  toShortFormatContractAddress (Some (js "0200aabbccddeeff00112233445566778899"))
  = Some (js "0xbbccddee...66778899").
Proof. vm_compute. reflexivity. Qed.

Example short_address_14 :
  toShortFormatContractAddress (Some (js "0123456789abcd"))
  = Some (js "0x0123456789abcd").
Proof. vm_compute. reflexivity. Qed.

Example goal_regex_examples :
  regex_test goal_regex (js "100") = true
  /\ regex_test goal_regex (js "") = false
  /\ regex_test goal_regex (js "1e3") = false
  /\ regex_test goal_regex (trim (js " 42 ")) = true.
Proof. vm_compute. auto. Qed.

(** ** The matcher *)

Section Matcher.

Variable p : N -> bool.
Variable k : jsstring -> nat -> option match_result.

Lemma times_app (pre rest : jsstring) (i : nat) :
  forallb p pre = true ->
  times p (List.length pre) (pre ++ rest) i k = k rest (List.length pre + i).
Proof.
  revert i. induction pre as [|c pre IH]; intros i H; simpl in *.
  - reflexivity.
  - apply andb_prop in H. destruct H as [Hc Hpre]. rewrite Hc.
    rewrite IH by assumption. f_equal. lia.
Qed.

Lemma times_some (n : nat) (s : jsstring) (i : nat) (r : match_result) :
  times p n s i k = Some r ->
  exists pre rest,
    s = pre ++ rest /\ List.length pre = n /\ forallb p pre = true
    /\ k rest (n + i) = Some r.
Proof.
  revert s i. induction n as [|n IH]; intros s i H; simpl in H.
  - exists [], s. auto.
  - destruct s as [|c s]; [discriminate|].
    destruct (p c) eqn:Hc; [|discriminate].
    apply IH in H. destruct H as (pre & rest & -> & Hlen & Hall & Hk).
    exists (c :: pre), rest. simpl. rewrite Hc, Hall, Hlen.
    repeat split; auto. rewrite <- Hk. f_equal. lia.
Qed.

(** When the rest of the pattern fails on everything shorter than [s], the
    star ends up consuming nothing. *)
Lemma star_only (s : jsstring) (i : nat) :
  (forall s' i', List.length s' < List.length s -> k s' i' = None) ->
  star p s i k = k s i.
Proof.
  revert i. induction s as [|c s IH]; intros i H; simpl.
  - reflexivity.
  - destruct (p c); [|reflexivity].
    rewrite IH.
    + rewrite H by (simpl; lia). reflexivity.
    + intros s' i' Hlt. apply H. simpl. lia.
Qed.

(** When the rest of the pattern can only match what has the length of
    [rest], backtracking brings the star to that point. *)
Lemma star_split (mid rest : jsstring) (i : nat) :
  forallb p mid = true ->
  (forall s' i', List.length s' <> List.length rest -> k s' i' = None) ->
  star p (mid ++ rest) i k = k rest (List.length mid + i).
Proof.
  intros Hmid Hk. revert i Hmid.
  induction mid as [|c mid IH]; intros i Hmid; simpl in *.
  - apply star_only. intros s' i' Hlt. apply Hk. lia.
  - apply andb_prop in Hmid. destruct Hmid as [Hc Hmid]. rewrite Hc.
    rewrite IH by assumption.
    replace (List.length mid + S i) with (S (List.length mid + i)) by lia.
    destruct (k rest (S (List.length mid + i))); [reflexivity|].
    apply Hk. simpl. rewrite length_app. lia.
Qed.

Lemma star_some (s : jsstring) (i : nat) (r : match_result) :
  star p s i k = Some r ->
  exists mid rest,
    s = mid ++ rest /\ forallb p mid = true
    /\ k rest (List.length mid + i) = Some r.
Proof.
  revert i. induction s as [|c s IH]; intros i H; simpl in H.
  - exists [], []. auto.
  - destruct (p c) eqn:Hc.
    + destruct (star p s (S i) k) eqn:Hs.
      * injection H as ->. apply IH in Hs.
        destruct Hs as (mid & rest & -> & Hall & Hk).
        exists (c :: mid), rest. simpl. rewrite Hc, Hall.
        repeat split; auto. rewrite <- Hk. f_equal. lia.
      * exists [], (c :: s). auto.
    + exists [], (c :: s). auto.
Qed.

End Matcher.

Lemma times_exactly (p : N -> bool)
    (k : jsstring -> nat -> option match_result)
    (n : nat) (pre rest : jsstring) (i : nat) :
  List.length pre = n ->
  forallb p pre = true ->
  times p n (pre ++ rest) i k = k rest (n + i).
Proof. intros <- H. apply times_app. exact H. Qed.

(** A repetition that has to reach the end of the subject takes all of it. *)
Lemma times_to_end (p : N -> bool) (f : nat -> option match_result)
    (n : nat) (s : jsstring) (i : nat) (r : match_result) :
  times p n s i
    (fun s' i' => match s' with [] => f i' | _ :: _ => None end) = Some r ->
  List.length s = n /\ forallb p s = true /\ f (n + i) = Some r.
Proof.
  intros H. apply times_some in H.
  destruct H as (pre & rest & -> & Hlen & Hall & Hk).
  destruct rest; [|discriminate].
  rewrite app_nil_r. auto.
Qed.

(** ** The address pattern *)

Lemma address_regex_anchored (s : jsstring) (i : nat) :
  i <> 0 -> exec_at address_regex s i = None.
Proof.
  intros Hi. unfold exec_at, address_regex. cbn [rmatch].
  destruct (Nat.eqb_spec i 0); [contradiction|reflexivity].
Qed.

Lemma address_regex_matches (p6 g1 mid g2 : jsstring) :
  List.length p6 = 6 -> List.length g1 = 8 -> List.length g2 = 8 ->
  forallb is_hex p6 = true -> forallb is_hex g1 = true ->
  forallb is_hex g2 = true -> forallb is_dot mid = true ->
  exec_at address_regex (p6 ++ g1 ++ mid ++ g2) 0
  = Some (List.length (p6 ++ g1 ++ mid ++ g2), [(2, g2); (1, g1)]).
Proof.
  intros L6 L1 L2 H6 H1 H2 Hmid.
  unfold exec_at, address_regex. cbn [rmatch skipn Nat.eqb].
  rewrite times_exactly by assumption.
  rewrite times_exactly by assumption.
  rewrite star_split; [|exact Hmid|].
  - rewrite <- (app_nil_r g2) at 1.
    rewrite times_exactly by assumption.
    repeat rewrite length_app. rewrite L6, L1, L2.
    replace (8 + (List.length mid + (8 + (6 + 0))) - (List.length mid + (8 + (6 + 0))))
      with (List.length g2) by lia.
    replace (8 + (6 + 0) - (6 + 0)) with (List.length g1 + 0) by lia.
    rewrite firstn_all, firstn_app_2, firstn_O, app_nil_r.
    do 2 f_equal. lia.
  - intros s' i' Hlen.
    match goal with
    | |- ?t = None => destruct t eqn:E; [|reflexivity]
    end.
    apply times_to_end in E. destruct E as [E _]. lia.
Qed.

Lemma firstn_exact (n : nat) (a b : jsstring) :
  List.length a = n -> firstn n (a ++ b) = a.
Proof.
  intros <-. replace (List.length a) with (List.length a + 0) by lia.
  rewrite firstn_app_2, firstn_O, app_nil_r. reflexivity.
Qed.

Lemma skipn_exact (n : nat) (a b : jsstring) :
  List.length a = n -> skipn n (a ++ b) = b.
Proof.
  intros <-. rewrite skipn_app, skipn_all, Nat.sub_diag. reflexivity.
Qed.

Lemma address_regex_match_shape (s : jsstring) (r : match_result) :
  exec_at address_regex s 0 = Some r ->
  22 <= List.length s
  /\ forallb is_hex (firstn 14 s) = true
  /\ forallb is_dot (firstn (List.length s - 22) (skipn 14 s)) = true
  /\ forallb is_hex (skipn (List.length s - 8) s) = true.
Proof.
  intros H. unfold exec_at, address_regex in H.
  cbn [rmatch skipn Nat.eqb] in H.
  apply times_some in H. destruct H as (p6 & s1 & -> & L6 & H6 & H).
  apply times_some in H. destruct H as (g1 & s2 & -> & L1 & H1 & H).
  apply star_some in H. destruct H as (mid & g2 & -> & Hmid & H).
  apply times_to_end in H. destruct H as (L2 & H2 & _).
  assert (L14 : List.length (p6 ++ g1) = 14) by (rewrite length_app; lia).
  assert (Lall : List.length (p6 ++ g1 ++ mid ++ g2) = 22 + List.length mid)
    by (repeat rewrite length_app; lia).
  rewrite Lall. split; [lia|].
  rewrite (app_assoc p6 g1).
  rewrite (firstn_exact _ _ L14), (skipn_exact _ _ L14).
  rewrite forallb_app, H6, H1.
  split; [reflexivity|]. split.
  - rewrite firstn_exact by lia. exact Hmid.
  - rewrite app_assoc, skipn_exact; [exact H2|].
    repeat rewrite length_app. lia.
Qed.

Lemma firstn_plus (a b : nat) (l : jsstring) :
  firstn (a + b) l = firstn a l ++ firstn b (skipn a l).
Proof.
  revert l. induction a as [|a IH]; intros l; simpl.
  - reflexivity.
  - destruct l as [|c l]; simpl.
    + rewrite firstn_nil. reflexivity.
    + rewrite IH. reflexivity.
Qed.

Lemma forallb_firstn (p : N -> bool) (n : nat) (l : jsstring) :
  forallb p l = true -> forallb p (firstn n l) = true.
Proof.
  intros H. rewrite <- (firstn_skipn n l), forallb_app in H.
  apply andb_prop in H. tauto.
Qed.

Lemma forallb_skipn (p : N -> bool) (n : nat) (l : jsstring) :
  forallb p l = true -> forallb p (skipn n l) = true.
Proof.
  intros H. rewrite <- (firstn_skipn n l), forallb_app in H.
  apply andb_prop in H. tauto.
Qed.

Lemma forallb_weaken (p q : N -> bool) (l : jsstring) :
  (forall c, p c = true -> q c = true) ->
  forallb p l = true -> forallb q l = true.
Proof.
  intros Hpq H. rewrite forallb_forall in *. auto.
Qed.

Lemma is_hex_is_dot (c : N) : is_hex c = true -> is_dot c = true.
Proof.
  unfold is_dot, is_line_terminator. intros H.
  repeat match goal with
         | |- context [N.eqb c ?v] =>
             destruct (N.eqb_spec c v); [subst c; discriminate H|]
         end.
  reflexivity.
Qed.

(** The four pieces that the address pattern cuts a long enough address
    into. *)
Lemma address_pieces (s : jsstring) :
  22 <= List.length s ->
  s = firstn 6 s ++ firstn 8 (skipn 6 s)
      ++ firstn (List.length s - 22) (skipn 14 s)
      ++ skipn (List.length s - 8) s.
Proof.
  intros H.
  replace (skipn (List.length s - 8) s)
    with (skipn (List.length s - 22) (skipn 14 s))
    by (rewrite skipn_skipn; f_equal; lia).
  rewrite firstn_skipn.
  replace (skipn 14 s) with (skipn 8 (skipn 6 s))
    by (rewrite skipn_skipn; reflexivity).
  rewrite firstn_skipn, firstn_skipn. reflexivity.
Qed.

Lemma replace_from_anchored (s : jsstring) (n i : nat) :
  i <> 0 -> replace_from address_regex address_template s i n = skipn i s.
Proof.
  revert i. induction n as [|n IH]; intros i Hi; simpl.
  - reflexivity.
  - destruct (Nat.ltb_spec (List.length s) i) as [Hlt|Hle].
    { rewrite skipn_all2 by lia. reflexivity. }
    rewrite address_regex_anchored by assumption.
    destruct (skipn i s) as [|c rest] eqn:E; [reflexivity|].
    rewrite IH by lia.
    replace (S i) with (1 + i) by reflexivity.
    rewrite <- skipn_skipn, E. reflexivity.
Qed.

Lemma replace_all_unmatched (s : jsstring) :
  exec_at address_regex s 0 = None ->
  replace_all address_regex address_template s = s.
Proof.
  intros H. unfold replace_all. cbn [replace_from Nat.ltb Nat.leb].
  rewrite H.
  destruct s as [|c s]; [reflexivity|].
  cbn [skipn]. rewrite replace_from_anchored by lia. reflexivity.
Qed.

Lemma replace_all_matched (s : jsstring) (cs : captures) :
  s <> [] ->
  exec_at address_regex s 0 = Some (List.length s, cs) ->
  replace_all address_regex address_template s = expand address_template cs.
Proof.
  intros Hs H. unfold replace_all. cbn [replace_from Nat.ltb Nat.leb].
  rewrite H.
  destruct (Nat.eqb_spec (List.length s) 0) as [E|E].
  - destruct s; [contradiction|discriminate].
  - rewrite replace_from_anchored by assumption.
    rewrite skipn_all, app_nil_r. reflexivity.
Qed.

(** What the shortener shows for an address that the pattern matches. *)
Lemma short_address_of_match (s : jsstring) :
  22 <= List.length s ->
  forallb is_hex (firstn 14 s) = true ->
  forallb is_dot (firstn (List.length s - 22) (skipn 14 s)) = true ->
  forallb is_hex (skipn (List.length s - 8) s) = true ->
  toShortFormatContractAddress (Some s)
  = Some (js "0x" ++ firstn 8 (skipn 6 s) ++ js "..."
          ++ skipn (List.length s - 8) s).
Proof.
  intros Hlen H14 Hmid H8.
  assert (Hs : s <> []) by (destruct s; [simpl in Hlen; lia|discriminate]).
  unfold toShortFormatContractAddress.
  destruct s as [|c s']; [contradiction|]. cbn [truthy].
  remember (c :: s') as s eqn:Es.
  replace 14 with (6 + 8) in H14 by reflexivity.
  rewrite firstn_plus, forallb_app in H14. apply andb_prop in H14.
  destruct H14 as [H6 H1].
  assert (M := address_regex_matches
                 (firstn 6 s) (firstn 8 (skipn 6 s))
                 (firstn (List.length s - 22) (skipn 14 s))
                 (skipn (List.length s - 8) s)).
  rewrite <- address_pieces in M by assumption.
  assert (L6 : List.length (firstn 6 s) = 6)
    by (rewrite length_firstn; lia).
  assert (L1 : List.length (firstn 8 (skipn 6 s)) = 8)
    by (rewrite length_firstn, length_skipn; lia).
  assert (L2 : List.length (skipn (List.length s - 8) s) = 8)
    by (rewrite length_skipn; lia).
  rewrite (replace_all_matched Hs (M L6 L1 L2 H6 H1 H8 Hmid)).
  unfold address_template, expand. cbn [flat_map capture_get Nat.eqb].
  rewrite app_nil_r. reflexivity.
Qed.

(** ** The shortened contract address *)

(** C4, as amended: for every contract address of at least 22 hex characters
    (the 6 of the prefix, 8 and 8), the shortened form is the literal [0x],
    the 8 characters after the 6-character prefix, three dots and the last 8
    characters. *)
Theorem short_address_of_long_hex (s : jsstring) :
  forallb is_hex s = true ->
  22 <= List.length s ->
  toShortFormatContractAddress (Some s)
  = Some (js "0x" ++ firstn 8 (skipn 6 s) ++ js "..."
          ++ skipn (List.length s - 8) s).
Proof.
  intros Hhex Hlen. apply short_address_of_match.
  - exact Hlen.
  - apply forallb_firstn. exact Hhex.
  - apply forallb_firstn, forallb_skipn.
    apply forallb_weaken with (p := is_hex); [exact is_hex_is_dot|exact Hhex].
  - apply forallb_skipn. exact Hhex.
Qed.

Lemma short_address_of_long_hex_witness :
  toShortFormatContractAddress
    (Some (js "0200e1b2c3d4a5f60718293a4b5c6d7e8f90"))
  = Some (js "0xb2c3d4a5...6d7e8f90").
Proof.
  apply (short_address_of_long_hex (js "0200e1b2c3d4a5f60718293a4b5c6d7e8f90")).
  - vm_compute. reflexivity.
  - vm_compute. lia.
Defined.

(** C4, as stated, fails on an address of 14 hex characters: the pattern needs
    22, so the address is shown whole. *)
Lemma short_address_of_14_hex_is_whole :
  let s := js "0123456789abcd" in
  forallb is_hex s = true
  /\ 14 <= List.length s
  /\ toShortFormatContractAddress (Some s) = Some (js "0x0123456789abcd")
  /\ toShortFormatContractAddress (Some s)
     <> Some (js "0x" ++ firstn 8 (skipn 6 s) ++ js "..."
              ++ skipn (List.length s - 8) s).
Proof.
  cbv zeta. split; [vm_compute; reflexivity|].
  split; [vm_compute; lia|].
  split; [vm_compute; reflexivity|].
  vm_compute. discriminate.
Qed.

Lemma unmatched_address_is_whole (s : jsstring) :
  s <> [] ->
  List.length s < 22
  \/ forallb is_hex (firstn 14 s) = false
  \/ forallb is_dot (firstn (List.length s - 22) (skipn 14 s)) = false
  \/ forallb is_hex (skipn (List.length s - 8) s) = false ->
  toShortFormatContractAddress (Some s) = Some (js "0x" ++ s).
Proof.
  intros Hs Hno.
  assert (E : exec_at address_regex s 0 = None).
  { destruct (exec_at address_regex s 0) as [r|] eqn:E; [|reflexivity].
    apply address_regex_match_shape in E.
    destruct E as (Hlen & H14 & Hmid & H8).
    destruct Hno as [H|[H|[H|H]]]; [lia|congruence|congruence|congruence]. }
  unfold toShortFormatContractAddress.
  destruct s as [|c s]; [contradiction|]. cbn [truthy].
  rewrite replace_all_unmatched by exact E. reflexivity.
Qed.

(** C10, as amended: for every contract address that is not empty and that the
    pattern does not match (it is shorter than 22 characters, or one of its
    first 14 or last 8 characters is not a hex digit, or there is a line
    terminator between them), the shortener returns a value: the literal [0x]
    followed by the whole address, and that is the title of the card. For the
    empty address the shortener returns nothing, and the title of the card is
    [Loading...]. *)
Theorem short_address_of_unmatched (s : jsstring) :
  (s <> [] ->
   List.length s < 22
   \/ forallb is_hex (firstn 14 s) = false
   \/ forallb is_dot (firstn (List.length s - 22) (skipn 14 s)) = false
   \/ forallb is_hex (skipn (List.length s - 8) s) = false ->
   toShortFormatContractAddress (Some s) = Some (js "0x" ++ s)
   /\ forall b api,
        deployedBoardAPI (cells b) = Some api ->
        deployedContractAddress api = s ->
        cardTitle (render b) = js "0x" ++ s)
  /\ toShortFormatContractAddress (Some []) = None
  /\ (forall b api,
        deployedBoardAPI (cells b) = Some api ->
        deployedContractAddress api = [] ->
        cardTitle (render b) = js "Loading...").
Proof.
  split; [|split].
  - intros Hs Hno.
    assert (E := unmatched_address_is_whole Hs Hno).
    split; [exact E|].
    intros b api Ha Hs'. unfold render. cbn [cardTitle].
    rewrite Ha. cbn [option_map]. rewrite Hs', E. reflexivity.
  - reflexivity.
  - intros b api Ha Hs'. unfold render. cbn [cardTitle].
    rewrite Ha. cbn [option_map]. rewrite Hs'. reflexivity.
Qed.

Lemma short_address_of_unmatched_witness :
  (toShortFormatContractAddress
     (Some (js "0200e1b2c3d4a5f60718293a4b5c6d7e8fzz"))
   = Some (js "0x0200e1b2c3d4a5f60718293a4b5c6d7e8fzz")
   /\ cardTitle
        (render (step (mount true)
                   (DeploymentEmits
                      (Deployed
                         (mkAPI 1 (js "0200e1b2c3d4a5f60718293a4b5c6d7e8fzz"))))))
      = js "0x0200e1b2c3d4a5f60718293a4b5c6d7e8fzz")
  /\ cardTitle
       (render (step (mount true) (DeploymentEmits (Deployed (mkAPI 2 [])))))
     = js "Loading...".
Proof.
  destruct (short_address_of_unmatched
              (js "0200e1b2c3d4a5f60718293a4b5c6d7e8fzz"))
    as (Hwhole & _ & Hempty).
  split.
  - destruct Hwhole as [Hs Ht].
    + discriminate.
    + right. right. right. vm_compute. reflexivity.
    + split; [exact Hs|].
      apply (Ht _ (mkAPI 1 (js "0200e1b2c3d4a5f60718293a4b5c6d7e8fzz")));
        reflexivity.
  - apply (Hempty _ (mkAPI 2 [])); reflexivity.
Defined.

(** C10, as stated, fails on the empty address, for which the shortener
    returns nothing and the card title falls back to [Loading...]; and on an
    address with other characters between its first 14 and last 8 hex
    characters, which the pattern matches and shortens. *)
Lemma short_address_of_empty_is_undefined :
  toShortFormatContractAddress (Some []) = None
  /\ toShortFormatContractAddress (Some []) <> Some (js "0x" ++ [])
  /\ (let s := js "0123456789abcd--01234567" in
      forallb is_hex s = false
      /\ toShortFormatContractAddress (Some s) = Some (js "0x6789abcd...01234567")
      /\ toShortFormatContractAddress (Some s) <> Some (js "0x" ++ s)).
Proof.
  split; [reflexivity|]. split; [discriminate|].
  cbv zeta. split; [vm_compute; reflexivity|].
  split; [vm_compute; reflexivity|].
  vm_compute. discriminate.
Qed.

(** ** The funding-goal pattern *)

Lemma goal_regex_anchored (s : jsstring) (i : nat) :
  i <> 0 -> exec_at goal_regex s i = None.
Proof.
  intros Hi. unfold exec_at, goal_regex. cbn [rmatch].
  destruct (Nat.eqb_spec i 0); [contradiction|reflexivity].
Qed.

Lemma search_from_unfold (r : regex) (s : jsstring) (i n : nat) :
  search_from r s i n
  = match exec_at r s i with
    | Some _ => true
    | None => match n with
              | O => false
              | S n' => search_from r s (S i) n'
              end
    end.
Proof. destruct n; reflexivity. Qed.

Lemma goal_regex_search_later (s : jsstring) (n i : nat) :
  i <> 0 -> search_from goal_regex s i n = false.
Proof.
  revert i. induction n as [|n IH]; intros i Hi; simpl;
    rewrite goal_regex_anchored by assumption; [reflexivity|].
  apply IH. lia.
Qed.

Lemma goal_regex_exec_digits (s : jsstring) :
  s <> [] -> forallb is_digit s = true ->
  exec_at goal_regex s 0 = Some (List.length s, []).
Proof.
  intros Hs Hd. unfold exec_at, goal_regex. cbn [rmatch skipn Nat.eqb].
  destruct s as [|c s]; [contradiction|].
  simpl in Hd. apply andb_prop in Hd. destruct Hd as [Hc Hd].
  unfold plus. rewrite Hc.
  rewrite <- (app_nil_r s) at 1.
  rewrite star_split; [|exact Hd|].
  - simpl. do 2 f_equal. lia.
  - intros [|c' s'] i' Hlen; [simpl in Hlen; lia|reflexivity].
Qed.

Lemma goal_regex_exec_some (s : jsstring) (r : match_result) :
  exec_at goal_regex s 0 = Some r -> decimal s.
Proof.
  unfold exec_at, goal_regex. cbn [rmatch skipn Nat.eqb]. intros H.
  destruct s as [|c s]; [discriminate|].
  unfold plus in H. destruct (is_digit c) eqn:Hc; [|discriminate].
  apply star_some in H. destruct H as (mid & rest & -> & Hmid & H).
  destruct rest; [|discriminate].
  split; [discriminate|].
  simpl. rewrite Hc, app_nil_r. exact Hmid.
Qed.

(** [/^\d+$/.test(s)] holds exactly of the non-empty strings of digits. *)
Lemma goal_regex_test_true (s : jsstring) :
  regex_test goal_regex s = true <-> decimal s.
Proof.
  unfold regex_test. split.
  - intros H. destruct (exec_at goal_regex s 0) as [r|] eqn:E.
    + exact (goal_regex_exec_some _ E).
    + rewrite search_from_unfold, E in H.
      destruct (List.length s); [discriminate|].
      rewrite goal_regex_search_later in H by lia. discriminate.
  - intros [Hs Hd].
    rewrite search_from_unfold, goal_regex_exec_digits by assumption.
    reflexivity.
Qed.

Lemma truthy_false_blank (v : option jsstring) :
  truthy v = false <-> blank v.
Proof.
  unfold blank. destruct v as [[|c s]|]; simpl; split; intros H; auto;
    try discriminate; destruct H; discriminate.
Qed.

Lemma not_blank_truthy (v : option jsstring) :
  ~ blank v -> exists s, v = Some s /\ truthy (Some s) = true.
Proof.
  unfold blank. destruct v as [[|c s]|]; intros H.
  - exfalso. auto.
  - exists (c :: s). auto.
  - exfalso. auto.
Qed.

(** ** Posting a campaign *)

Ltac unfold_async :=
  unfold try_catch_finally, bind, invoke, setErrorMessage, setIsWorking,
    update, ret.

(** The two checks of the post handler, on the values that its closure holds:
    when the title, the message or the goal is empty, the error message is set
    to the fill-in-all-fields text and nothing is called; when the three are
    not empty and the trimmed goal is not a non-empty string of digits, the
    error message is set to the goal-validation text and nothing is called. In
    both cases nothing else changes. *)
Theorem post_validation (env : PostClosure) (w : World) (c : Cells)
    (tr : Trace) :
  (blank (seen_titlePrompt env) \/ blank (seen_messagePrompt env)
   \/ blank (seen_goalPrompt env) ->
   onPostMessage env w c tr
   = (Resolved tt, set_errorMessage fill_in_all_fields c, tr))
  /\ (~ blank (seen_titlePrompt env) -> ~ blank (seen_messagePrompt env) ->
      ~ blank (seen_goalPrompt env) ->
      ~ decimal (trim (text (seen_goalPrompt env))) ->
      onPostMessage env w c tr
      = (Resolved tt, set_errorMessage enter_a_valid_goal c, tr)).
Proof.
  unfold onPostMessage. split.
  - intros H.
    assert (E : negb (truthy (seen_titlePrompt env))
                || negb (truthy (seen_messagePrompt env))
                || negb (truthy (seen_goalPrompt env)) = true).
    { repeat rewrite <- truthy_false_blank in H.
      destruct H as [H|[H|H]]; rewrite H; simpl;
        repeat rewrite orb_true_r; reflexivity. }
    rewrite E. reflexivity.
  - intros Ht Hm Hg Hd.
    destruct (not_blank_truthy Ht) as (t & -> & Tt).
    destruct (not_blank_truthy Hm) as (m & -> & Tm).
    destruct (not_blank_truthy Hg) as (g & Eg & Tg).
    rewrite Eg in *. rewrite Tt, Tm, Tg. cbn [negb orb option_map text] in *.
    destruct (regex_test goal_regex (trim g)) eqn:T.
    + apply goal_regex_test_true in T. contradiction.
    + rewrite orb_true_r. reflexivity.
Qed.

Lemma post_validation_witness :
  onPostMessage (mkPostClosure (Some (js "Roof repair")) None None (Some api0))
    all_resolve (initial_cells true) []
  = (Resolved tt, set_errorMessage fill_in_all_fields (initial_cells true), [])
  /\ onPostMessage
       (mkPostClosure (Some (js "Roof repair")) (Some (js "Help us"))
          (Some (js " 12.5 ")) (Some api0))
       all_resolve (initial_cells true) []
     = (Resolved tt, set_errorMessage enter_a_valid_goal (initial_cells true),
        []).
Proof.
  split.
  - apply (post_validation
             (mkPostClosure (Some (js "Roof repair")) None None (Some api0))
             all_resolve (initial_cells true) []).
    right. left. left. reflexivity.
  - apply (post_validation
             (mkPostClosure (Some (js "Roof repair")) (Some (js "Help us"))
                (Some (js " 12.5 ")) (Some api0))
             all_resolve (initial_cells true) []).
    + intros [H|H]; discriminate H.
    + intros [H|H]; discriminate H.
    + intros [H|H]; discriminate H.
    + intros [_ H]. vm_compute in H. discriminate H.
Defined.

(** C5 fails on the code: the values that the checks read are those of the
    last render in which the message or the API handle changed. Here the title
    field has been emptied and the goal field holds [12.5] when the post button
    is clicked; the checks pass on the earlier title and goal, the wallet
    resolver and the contract client are called, and no error message is
    set. *)
Theorem post_goes_out_with_emptied_title_and_bad_goal :
  let es := [DeploymentEmits InProgress; DeploymentEmits (Deployed api0);
             StateEmits vacant_snapshot;
             TitleInput (js "Roof repair"); GoalInput (js "1500");
             MessageInput (js "Help us");
             TitleInput []; GoalInput (js "12.5")] in
  let b := steps (mount true) es in
  feasible (mount true) (es ++ [ClickPostMessage all_resolve]) = true
  /\ titlePrompt (cells b) = Some []
  /\ goalPrompt (cells b) = Some (js "12.5")
  /\ regex_test goal_regex (trim (js "12.5")) = false
  /\ calls (snd (react b (ClickPostMessage all_resolve)))
     = [GetWalletAddress;
        ConsoleLog (mkWalletState (js "addr")) (js "addr");
        Post api0 (js "Roof repair") (js "Help us") 1500%Z (js "addr")]
  /\ errorMessage (cells (step b (ClickPostMessage all_resolve))) = None.
Proof. vm_compute. auto 6. Qed.

(** C9: a post submission that passes both checks while no API handle is
    available returns normally; it calls nothing, it does not touch the error
    message, and the cells after it are the cells before it with the working
    flag false. *)
Theorem post_without_api (env : PostClosure) (w : World) (c : Cells)
    (tr : Trace) :
  ~ blank (seen_titlePrompt env) ->
  ~ blank (seen_messagePrompt env) ->
  ~ blank (seen_goalPrompt env) ->
  decimal (trim (text (seen_goalPrompt env))) ->
  seen_deployedBoardAPI env = None ->
  onPostMessage env w c tr = (Resolved tt, set_isWorking false c, tr).
Proof.
  intros Ht Hm Hg Hd Hapi. unfold onPostMessage.
  destruct (not_blank_truthy Ht) as (t & -> & Tt).
  destruct (not_blank_truthy Hm) as (m & -> & Tm).
  destruct (not_blank_truthy Hg) as (g & Eg & Tg).
  rewrite Eg in *. rewrite Tt, Tm, Tg, Hapi.
  cbn [negb orb option_map text] in *.
  assert (T : truthy (Some (trim g)) = true).
  { destruct Hd as [Hne _]. destruct (trim g); [contradiction|reflexivity]. }
  rewrite T. apply goal_regex_test_true in Hd. rewrite Hd. reflexivity.
Qed.

Lemma post_without_api_witness :
  onPostMessage
    (mkPostClosure (Some (js "Roof repair")) (Some (js "Help us"))
       (Some (js " 1500 ")) None)
    all_resolve (initial_cells true) []
  = (Resolved tt, set_isWorking false (initial_cells true), []).
Proof.
  apply (post_without_api
           (mkPostClosure (Some (js "Roof repair")) (Some (js "Help us"))
              (Some (js " 1500 ")) None)
           all_resolve (initial_cells true) []).
  - intros [H|H]; discriminate H.
  - intros [H|H]; discriminate H.
  - intros [H|H]; discriminate H.
  - split; [vm_compute; discriminate|vm_compute; reflexivity].
  - reflexivity.
Defined.

Example post_calls_when_valid :
  calls (snd (run (onPostMessage
                     (mkPostClosure (Some (js "Roof repair"))
                        (Some (js "Help us")) (Some (js " 1500 "))
                        (Some api0))
                     all_resolve) (initial_cells true)))
  = [GetWalletAddress;
     ConsoleLog (mkWalletState (js "addr")) (js "addr");
     Post api0 (js "Roof repair") (js "Help us") 1500%Z (js "addr")].
Proof. vm_compute. reflexivity. Qed.

(** ** Contributing tokens *)

(** The contribution handler never raises the working flag: every call it
    makes sees the flag as it was before, and the flag is down at the end,
    however the calls end. *)
Lemma sendToken_working_flag (api : option DeployedBBoardAPI) (w : World)
    (c : Cells) :
  Forall (fun o => isWorking (during o) = isWorking c)
    (snd (run (onSendToken api w) c))
  /\ isWorking (fst (run (onSendToken api w) c)) = false.
Proof.
  unfold run, onSendToken. unfold_async.
  destruct api as [api|]; simpl.
  - destruct (build_result w) as [wallet|e]; simpl.
    + destruct (start_result w) as [[]|e]; simpl.
      * destruct (contribute_result w) as [[]|e]; simpl;
          split; try reflexivity; repeat constructor.
      * split; try reflexivity; repeat constructor.
    + split; try reflexivity; repeat constructor.
  - split; [constructor|reflexivity].
Qed.

(** The handlers of the two sibling actions do raise it around their call to
    the contract. *)
Lemma takeDown_working_flag (api : DeployedBBoardAPI) (w : World)
    (c : Cells) :
  map (fun o => (call o, isWorking (during o)))
    (snd (run (onDeleteMessage (Some api) w) c))
  = [(TakeDown api, true)]
  /\ isWorking (fst (run (onDeleteMessage (Some api) w) c)) = false.
Proof.
  unfold run, onDeleteMessage. unfold_async. simpl.
  destruct (takeDown_result w) as [[]|e]; simpl; auto.
Qed.

(** C1 fails on the code: with the working flag down, a contribution whose
    calls all succeed runs every one of them, the contribution call included,
    with the flag still down. *)
Theorem sendToken_leaves_working_flag_down :
  let b := steps (mount true)
             [DeploymentEmits InProgress; DeploymentEmits (Deployed api0);
              StateEmits vacant_snapshot; GoalInput (js "5")] in
  enabled b (ClickSendTokens all_resolve) = true
  /\ isWorking (cells b) = false
  /\ map (fun o => (call o, isWorking (during o)))
       (snd (react b (ClickSendTokens all_resolve)))
     = [(WalletBuild testnet_config, false);
        (WalletStart 0, false);
        (ContributeWithWallet api0 0 1%Z, false)]
  /\ isWorking (cells (step b (ClickSendTokens all_resolve))) = false.
Proof. vm_compute. auto. Qed.

(** C8: a contribution asks for a wallet built from the fixed test-network
    configuration, each time anew; it starts the wallet that was built, and
    then calls the contract's contribution method with that wallet and the
    amount 1. A step is not taken only when the one before it has failed, or,
    for all three, when there is no API handle, which no click on the button
    meets. Whatever happens, the only cells it writes are the error message
    and the working flag: the wallet is kept nowhere. *)
Theorem sendToken_calls (api : DeployedBBoardAPI) (w : World) (c : Cells) :
  calls (snd (run (onSendToken (Some api) w) c))
  = match build_result w with
    | Rejected _ => [WalletBuild testnet_config]
    | Resolved wallet =>
        match start_result w with
        | Rejected _ => [WalletBuild testnet_config; WalletStart wallet]
        | Resolved _ =>
            [WalletBuild testnet_config; WalletStart wallet;
             ContributeWithWallet api wallet 1%Z]
        end
    end
  /\ calls (snd (run (onSendToken None w) c)) = []
  /\ (let c' := fst (run (onSendToken (Some api) w) c) in
      boardDeployment c' = boardDeployment c
      /\ deployedBoardAPI c' = deployedBoardAPI c
      /\ boardState c' = boardState c
      /\ messagePrompt c' = messagePrompt c
      /\ titlePrompt c' = titlePrompt c
      /\ goalPrompt c' = goalPrompt c).
Proof.
  unfold run, onSendToken, calls. unfold_async. simpl.
  destruct (build_result w) as [wallet|e]; simpl.
  - destruct (start_result w) as [[]|e]; simpl.
    + destruct (contribute_result w) as [[]|e]; simpl; repeat split.
    + repeat split.
  - repeat split.
Qed.

(** ** The deployment stream *)

(** C6: after a [failed] emission the error message, and the text that the card
    shows, is the message of the failure when that is not empty and the
    generic text otherwise; it is never the empty text. *)
Theorem failed_deployment_error_text (b : Board) (msg : jsstring) :
  let b' := step b (DeploymentEmits (Failed msg)) in
  let expected := match msg with
                  | [] => unexpected_error
                  | _ :: _ => msg
                  end in
  errorMessage (cells b') = Some expected
  /\ errorText (render b') = expected
  /\ errorText (render b') <> []
  /\ errorBackdrop (render b') = has_boardDeployment_stream b.
Proof.
  cbv zeta. unfold step, rerender, render.
  cbn [cells fst react has_boardDeployment_stream].
  unfold deployment_effect.
  destruct msg as [|c msg]; cbn [List.length Nat.eqb set_errorMessage
    errorMessage errorText errorBackdrop text truthy];
    rewrite andb_true_r; repeat split; discriminate.
Qed.

Lemma awaiting_mount : awaiting (mount true).
Proof. unfold awaiting. simpl. repeat split. left. reflexivity. Qed.

Lemma awaiting_step (b : Board) (e : Event) :
  awaiting b -> enabled b e = true -> keeps_deployment_pending e = true ->
  awaiting (step b e).
Proof.
  intros (Hs & Hw & Ha & Hb & Hd) He Hp.
  destruct b as [stream c env]. cbn [has_boardDeployment_stream cells] in *.
  destruct c as [dep api err bs mp tp gp wk].
  cbn [isWorking deployedBoardAPI boardState boardDeployment] in *. subst.
  destruct e as [d|s|v|v|v|w|a w|w|w|w|w];
    try (vm_compute in He; discriminate He).
  - destruct d; try discriminate Hp.
    unfold awaiting. simpl. repeat split. right. reflexivity.
  - unfold enabled in He. cbn in He.
    destruct Hd as [->| ->]; discriminate He.
Qed.




(** ** The error message *)

Lemma cells_step (b : Board) (e : Event) :
  cells (step b e) = fst (react b e).
Proof. reflexivity. Qed.







(** The same holds of an error message that comes from a validation failure
    after the deployment: a later [deployed] emission does not remove it. *)
Example deployed_emission_keeps_validation_error :
  let b := steps (mount true)
             [DeploymentEmits InProgress; DeploymentEmits (Deployed api0);
              StateEmits vacant_snapshot; MessageInput (js "Help us");
              ClickPostMessage all_resolve] in
  let b' := step b (DeploymentEmits (Deployed api0)) in
  errorMessage (cells b) = Some fill_in_all_fields
  /\ errorMessage (cells b') = Some fill_in_all_fields.
Proof. vm_compute. auto. Qed.

(** ** The action buttons *)

(** C2, as amended: the take-down button is on the card when there is a
    deployment stream and an API handle, and then it is disabled exactly when
    the latest snapshot is vacant or is occupied with the owner flag false; it
    is enabled when the snapshot is occupied with the owner flag true and also
    when no snapshot has arrived yet. *)
Theorem takeDown_enabled_cases (b : Board) :
  takeDownEnabled (render b)
  = has_boardDeployment_stream b
    && match deployedBoardAPI (cells b) with
       | Some _ => true
       | None => false
       end
    && match boardState (cells b) with
       | None => true
       | Some s =>
           match Derived.state s with
           | VACANT => false
           | OCCUPIED => Derived.isOwner s
           end
       end.
Proof.
  unfold render, takeDown_disabled, state_is. cbn [takeDownEnabled].
  f_equal.
  destruct (boardState (cells b)) as [s|]; [|reflexivity].
  destruct (Derived.state s), (Derived.isOwner s); reflexivity.
Qed.

(** C2, as stated, fails between the [deployed] emission and the first
    snapshot: there is no snapshot, and the take-down button is enabled. *)
Lemma takeDown_enabled_before_first_snapshot :
  let b := steps (mount true)
             [DeploymentEmits InProgress; DeploymentEmits (Deployed api0)] in
  boardState (cells b) = None
  /\ takeDownEnabled (render b) = true
  /\ enabled b (ClickTakeDown all_resolve) = true.
Proof. vm_compute. auto. Qed.

(** ** The memoised post callback *)

(** The post callback is created anew only when the message or the API handle
    changes. A title edited after the last edit of the message is not seen:
    here the title field has been emptied, and the post goes out with the
    earlier title. *)
Lemma post_reads_title_of_last_message_edit :
  let b := steps (mount true)
             [DeploymentEmits InProgress; DeploymentEmits (Deployed api0);
              StateEmits vacant_snapshot;
              TitleInput (js "Roof repair"); GoalInput (js "1500");
              MessageInput (js "Help us"); TitleInput []] in
  titlePrompt (cells b) = Some []
  /\ enabled b (ClickPostMessage all_resolve) = true
  /\ calls (snd (react b (ClickPostMessage all_resolve)))
     = [GetWalletAddress;
        ConsoleLog (mkWalletState (js "addr")) (js "addr");
        Post api0 (js "Roof repair") (js "Help us") 1500%Z (js "addr")].
Proof. vm_compute. auto. Qed.

Lemma jsstring_eqb_eq (a b : jsstring) : jsstring_eqb a b = true <-> a = b.
Proof.
  unfold jsstring_eqb. destruct (list_eq_dec N.eq_dec a b); split; intros H;
    auto; try discriminate; contradiction.
Qed.

Lemma DeployedBBoardAPI_eqb_eq (a b : DeployedBBoardAPI) :
  DeployedBBoardAPI_eqb a b = true <-> a = b.
Proof.
  unfold DeployedBBoardAPI_eqb. destruct a as [i x], b as [j y]. simpl.
  rewrite andb_true_iff, Nat.eqb_eq, jsstring_eqb_eq.
  split; [intros [-> ->]; reflexivity|intros H; injection H; auto].
Qed.

Lemma option_eqb_eq {A : Type} (eqb : A -> A -> bool) (a b : option A) :
  (forall x y, eqb x y = true <-> x = y) ->
  option_eqb eqb a b = true <-> a = b.
Proof.
  intros Heqb. destruct a as [x|], b as [y|]; simpl.
  - rewrite Heqb. split; [intros ->; reflexivity|intros H; injection H; auto].
  - split; discriminate.
  - split; discriminate.
  - split; reflexivity.
Qed.

(** After every render the callback in use has seen the current message and
    the current API handle, the two variables among its dependencies; so an
    empty message field is always seen as empty. *)
Lemma closure_dependencies_current (b : Board) (e : Event) :
  seen_messagePrompt (onPostMessage_closure (step b e))
  = messagePrompt (cells (step b e))
  /\ seen_deployedBoardAPI (onPostMessage_closure (step b e))
     = deployedBoardAPI (cells (step b e)).
Proof.
  unfold step, rerender. cbn [onPostMessage_closure cells].
  destruct (same_dependencies (onPostMessage_closure b) (fst (react b e)))
    eqn:E.
  - unfold same_dependencies in E. apply andb_prop in E. destruct E as [Ea Em].
    apply (option_eqb_eq _ _ _ DeployedBBoardAPI_eqb_eq) in Ea.
    apply (option_eqb_eq _ _ _ jsstring_eqb_eq) in Em. auto.
  - split; reflexivity.
Qed.

(** With a snapshot of a campaign owned by the user, taking down is enabled
    and posting and contributing are disabled. *)
Example owner_of_campaign_can_only_take_down :
  let b := steps (mount true)
             [DeploymentEmits InProgress; DeploymentEmits (Deployed api0);
              StateEmits (Derived.mk OCCUPIED (js "T") 100%Z (js "M") true)] in
  takeDownEnabled (render b) = true
  /\ postMessageEnabled (render b) = false
  /\ sendTokensEnabled (render b) = false
  /\ avatar (render b) = LockOpenIcon
  /\ cardTitle (render b) = js "0xb2c3d4a5...6d7e8f90".
Proof. vm_compute. auto 6. Qed.

(** * Further properties of the component *)

(** ** The funding goal *)







(** X2: the goal check accepts a string exactly when it is not empty and all
    its code units are decimal digits: no sign, no decimal point, no exponent,
    no white space inside. *)
Theorem goal_pattern_exact (s : jsstring) :
  regex_test goal_regex s
  = match s with
    | [] => false
    | _ :: _ => forallb is_digit s
    end.
Proof.
  destruct (regex_test goal_regex s) eqn:T.
  - apply goal_regex_test_true in T. destruct T as [Hne Hd].
    destruct s; [contradiction|]. symmetry. exact Hd.
  - destruct s as [|c s]; [reflexivity|].
    destruct (forallb is_digit (c :: s)) eqn:D; [|reflexivity].
    assert (H : decimal (c :: s)) by (split; [discriminate|exact D]).
    apply goal_regex_test_true in H. congruence.
Qed.

Lemma BigInt_of_digits_from (s : jsstring) (acc : Z) :
  forallb is_digit s = true -> (0 <= acc)%Z ->
  (0 <= fold_left (fun a c => 10 * a + (Z.of_N c - 48)) s acc)%Z.
Proof.
  revert acc. induction s as [|c s IH]; cbn [fold_left forallb];
    intros acc H Hacc.
  - exact Hacc.
  - apply andb_prop in H. destruct H as [Hc Hs].
    apply IH; [exact Hs|].
    unfold is_digit, in_range in Hc. apply andb_prop in Hc.
    destruct Hc as [Hlo _]. apply N.leb_le in Hlo. cbv beta.
    assert (48 <= Z.of_N c)%Z by (change 48%Z with (Z.of_N 48); lia).
    lia.
Qed.

(** ** What a post sends *)

(** A run of the post handler that gets past both checks. *)
Lemma onPostMessage_checked (env : PostClosure) (w : World) :
  truthy (seen_titlePrompt env) = true ->
  truthy (seen_messagePrompt env) = true ->
  truthy (seen_goalPrompt env) = true ->
  decimal (trim (text (seen_goalPrompt env))) ->
  onPostMessage env w
  = try_catch_finally
      (match seen_deployedBoardAPI env with
       | Some api =>
           walletState <- invoke GetWalletAddress (getWalletAddress_result w) ;;
           invoke (ConsoleLog walletState (address walletState)) (Resolved tt) ;;;
           setIsWorking true ;;;
           invoke (Post api (text (seen_titlePrompt env))
                     (text (seen_messagePrompt env))
                     (BigInt_of_digits (trim (text (seen_goalPrompt env))))
                     (address walletState))
                  (post_result w)
       | None => ret tt
       end)
      (fun error => setErrorMessage (thrown_text error))
      (setIsWorking false).
Proof.
  intros Tt Tm Tg Hd. unfold onPostMessage. rewrite Tt, Tm, Tg.
  cbn [negb orb].
  destruct (seen_goalPrompt env) as [g|]; [|discriminate Tg].
  cbn [option_map text] in *.
  assert (T : truthy (Some (trim g)) = true).
  { destruct Hd as [Hne _]. destruct (trim g); [contradiction|reflexivity]. }
  rewrite T. apply goal_regex_test_true in Hd. rewrite Hd. reflexivity.
Qed.

Lemma truthy_text_nonempty (v : option jsstring) :
  truthy v = true -> text v <> [].
Proof. destruct v as [[|c s]|]; simpl; intros H; discriminate. Qed.

(** X3: a post that passes the checks and has an API handle first asks for
    the wallet address, with the working flag as it was; only when the address
    has come does it raise the flag and call [post], with the title and the
    message as read, the value of the trimmed goal and that address. When the
    address does not come, [post] is not called. *)
Theorem post_calls_in_order (env : PostClosure) (w : World) (c : Cells)
    (api : DeployedBBoardAPI) :
  truthy (seen_titlePrompt env) = true ->
  truthy (seen_messagePrompt env) = true ->
  truthy (seen_goalPrompt env) = true ->
  decimal (trim (text (seen_goalPrompt env))) ->
  seen_deployedBoardAPI env = Some api ->
  map (fun o => (call o, isWorking (during o)))
    (snd (run (onPostMessage env w) c))
  = match getWalletAddress_result w with
    | Rejected _ => [(GetWalletAddress, isWorking c)]
    | Resolved walletState =>
        [(GetWalletAddress, isWorking c);
         (ConsoleLog walletState (address walletState), isWorking c);
         (Post api (text (seen_titlePrompt env))
            (text (seen_messagePrompt env))
            (BigInt_of_digits (trim (text (seen_goalPrompt env))))
            (address walletState), true)]
    end.
Proof.
  intros Tt Tm Tg Hd Hapi.
  rewrite onPostMessage_checked by assumption. rewrite Hapi.
  unfold run. unfold_async. simpl.
  destruct (getWalletAddress_result w) as [ws|e]; simpl; [|reflexivity].
  destruct (post_result w) as [[]|e]; reflexivity.
Qed.

Lemma post_calls_in_order_witness :
  map (fun o => (call o, isWorking (during o)))
    (snd (run (onPostMessage
                 (mkPostClosure (Some (js "Roof repair")) (Some (js "Help us"))
                    (Some (js " 007 ")) (Some api0))
                 all_resolve) (initial_cells false)))
  = [(GetWalletAddress, false);
     (ConsoleLog (mkWalletState (js "addr")) (js "addr"), false);
     (Post api0 (js "Roof repair") (js "Help us") 7%Z (js "addr"), true)].
Proof.
  apply (@post_calls_in_order
           (mkPostClosure (Some (js "Roof repair")) (Some (js "Help us"))
              (Some (js " 007 ")) (Some api0))
           all_resolve (initial_cells false) api0).
  - reflexivity.
  - reflexivity.
  - reflexivity.
  - split; [vm_compute; discriminate|vm_compute; reflexivity].
  - reflexivity.
Defined.

(** X4: a post that passes the checks and has an API handle ends with the
    working flag down. The error message is the text of the first call that
    failed, the wallet-address lookup or [post]; when both succeed it is left
    as it was, and so are the prompts. *)
Theorem post_outcome (env : PostClosure) (w : World) (c : Cells)
    (api : DeployedBBoardAPI) :
  truthy (seen_titlePrompt env) = true ->
  truthy (seen_messagePrompt env) = true ->
  truthy (seen_goalPrompt env) = true ->
  decimal (trim (text (seen_goalPrompt env))) ->
  seen_deployedBoardAPI env = Some api ->
  fst (run (onPostMessage env w) c)
  = set_isWorking false
      match getWalletAddress_result w with
      | Rejected e => set_errorMessage (thrown_text e) c
      | Resolved _ =>
          match post_result w with
          | Rejected e => set_errorMessage (thrown_text e) c
          | Resolved _ => c
          end
      end.
Proof.
  intros Tt Tm Tg Hd Hapi.
  rewrite onPostMessage_checked by assumption. rewrite Hapi.
  unfold run. unfold_async. simpl.
  destruct (getWalletAddress_result w) as [ws|e]; simpl; [|reflexivity].
  destruct (post_result w) as [[]|e]; reflexivity.
Qed.

Lemma post_outcome_witness :
  fst (run (onPostMessage
              (mkPostClosure (Some (js "Roof repair")) (Some (js "Help us"))
                 (Some (js "1500")) (Some api0))
              (mkWorld (Resolved (mkWalletState (js "addr")))
                 (Rejected (OtherValue (js "board is occupied")))
                 (Resolved 0) (Resolved tt) (Resolved tt) (Resolved tt)
                 (Resolved tt) (Resolved tt)))
         (initial_cells false))
  = set_isWorking false
      (set_errorMessage (js "board is occupied") (initial_cells false)).
Proof.
  apply (@post_outcome
           (mkPostClosure (Some (js "Roof repair")) (Some (js "Help us"))
              (Some (js "1500")) (Some api0))
           (mkWorld (Resolved (mkWalletState (js "addr")))
              (Rejected (OtherValue (js "board is occupied")))
              (Resolved 0) (Resolved tt) (Resolved tt) (Resolved tt)
              (Resolved tt) (Resolved tt))
           (initial_cells false) api0).
  - reflexivity.
  - reflexivity.
  - reflexivity.
  - split; [vm_compute; discriminate|vm_compute; reflexivity].
  - reflexivity.
Defined.

(** X5: whatever the prompts hold and however the collaborators answer,
    [post] is never called with an empty title, an empty message or a negative
    goal. *)
Theorem post_arguments_are_checked (env : PostClosure) (w : World)
    (c : Cells) :
  Forall (fun k => match k with
                   | Post _ title message goal _ =>
                       title <> [] /\ message <> [] /\ (0 <= goal)%Z
                   | _ => True
                   end)
    (calls (snd (run (onPostMessage env w) c))).
Proof.
  destruct (truthy (seen_titlePrompt env)) eqn:Tt;
    [|unfold run, onPostMessage; rewrite Tt; constructor].
  destruct (truthy (seen_messagePrompt env)) eqn:Tm;
    [|unfold run, onPostMessage; rewrite Tt, Tm; constructor].
  destruct (truthy (seen_goalPrompt env)) eqn:Tg;
    [|unfold run, onPostMessage; rewrite Tt, Tm, Tg; constructor].
  destruct (regex_test goal_regex (trim (text (seen_goalPrompt env)))) eqn:T.
  - apply goal_regex_test_true in T.
    rewrite onPostMessage_checked by assumption.
    unfold run, calls. unfold_async.
    destruct (seen_deployedBoardAPI env) as [api|]; simpl; [|constructor].
    destruct (getWalletAddress_result w) as [ws|e]; simpl;
      [|repeat constructor].
    assert (G : (0 <= BigInt_of_digits (trim (text (seen_goalPrompt env))))%Z).
    { apply BigInt_of_digits_from; [apply T|lia]. }
    destruct (post_result w) as [[]|e]; simpl; repeat constructor;
      auto using truthy_text_nonempty.
  - unfold run, onPostMessage. rewrite Tt, Tm, Tg. cbn [negb orb].
    destruct (seen_goalPrompt env) as [g|]; [|discriminate Tg].
    cbn [option_map text] in *. rewrite T, orb_true_r. constructor.
Qed.

(** ** How the handlers end *)

(** X6: when what a collaborator throws or rejects with is an [Error] or a
    value that [String(...)] can convert, the three action handlers do not
    reject: the failure is caught and their promise resolves. The copy handler
    has no such guard and ends as the clipboard call ends. *)
Theorem action_handlers_never_reject (env : PostClosure)
    (api : option DeployedBBoardAPI) (a : DeployedBBoardAPI) (w : World)
    (c : Cells) (tr : Trace) :
  fst (fst (onPostMessage env w c tr)) = Resolved tt
  /\ fst (fst (onSendToken api w c tr)) = Resolved tt
  /\ fst (fst (onDeleteMessage api w c tr)) = Resolved tt
  /\ fst (fst (onCopyContractAddress (Some a) w c tr)) = writeText_result w.
Proof.
  repeat split.
  - unfold onPostMessage.
    destruct (negb (truthy (seen_titlePrompt env))
              || negb (truthy (seen_messagePrompt env))
              || negb (truthy (seen_goalPrompt env))); [reflexivity|].
    cbv zeta.
    destruct (negb (truthy (option_map trim (seen_goalPrompt env)))
              || negb (regex_test goal_regex
                         (text (option_map trim (seen_goalPrompt env)))));
      [reflexivity|].
    unfold_async.
    destruct (seen_deployedBoardAPI env); simpl; [|reflexivity].
    destruct (getWalletAddress_result w) as [ws|e]; simpl; [|reflexivity].
    destruct (post_result w) as [[]|e]; reflexivity.
  - unfold onSendToken. unfold_async.
    destruct api; simpl; [|reflexivity].
    destruct (build_result w) as [wallet|e]; simpl; [|reflexivity].
    destruct (start_result w) as [[]|e]; simpl; [|reflexivity].
    destruct (contribute_result w) as [[]|e]; reflexivity.
  - unfold onDeleteMessage. unfold_async.
    destruct api; simpl; [|reflexivity].
    destruct (takeDown_result w) as [[]|e]; reflexivity.
Qed.

(** X7: a contribution ends with the working flag down and with the error
    message set to the text of the first step that failed (building the
    wallet, starting it, or the contribution itself); when all succeed, or
    when there is no API handle, the error message is left as it was. *)
Theorem sendToken_outcome (api : DeployedBBoardAPI) (w : World) (c : Cells) :
  fst (run (onSendToken (Some api) w) c)
  = set_isWorking false
      match build_result w with
      | Rejected e => set_errorMessage (thrown_text e) c
      | Resolved _ =>
          match start_result w with
          | Rejected e => set_errorMessage (thrown_text e) c
          | Resolved _ =>
              match contribute_result w with
              | Rejected e => set_errorMessage (thrown_text e) c
              | Resolved _ => c
              end
          end
      end
  /\ fst (run (onSendToken None w) c) = set_isWorking false c.
Proof.
  unfold run, onSendToken. unfold_async. simpl. split; [|reflexivity].
  destruct (build_result w) as [wallet|e]; simpl; [|reflexivity].
  destruct (start_result w) as [[]|e]; simpl; [|reflexivity].
  destruct (contribute_result w) as [[]|e]; reflexivity.
Qed.

(** X8: taking down with an API handle makes one call, [takeDown], while the
    working flag is up; it ends with the flag down and, when the call failed,
    with the text of the failure as error message. Without an API handle it
    calls nothing. *)
Theorem takeDown_outcome (api : DeployedBBoardAPI) (w : World) (c : Cells) :
  map (fun o => (call o, isWorking (during o)))
    (snd (run (onDeleteMessage (Some api) w) c))
  = [(TakeDown api, true)]
  /\ fst (run (onDeleteMessage (Some api) w) c)
     = set_isWorking false
         match takeDown_result w with
         | Rejected e => set_errorMessage (thrown_text e) c
         | Resolved _ => c
         end
  /\ run (onDeleteMessage None w) c = (set_isWorking false c, []).
Proof.
  unfold run, onDeleteMessage. unfold_async. simpl.
  destruct (takeDown_result w) as [[]|e]; simpl; auto.
Qed.

(** ** What the events leave alone *)

Lemma same_form_refl (c : Cells) : same_form c c.
Proof. unfold same_form. auto 6. Qed.

Lemma onPostMessage_same_form (env : PostClosure) (w : World) (c : Cells) :
  same_form c (fst (run (onPostMessage env w) c)).
Proof.
  unfold run, onPostMessage.
  destruct (negb (truthy (seen_titlePrompt env))
            || negb (truthy (seen_messagePrompt env))
            || negb (truthy (seen_goalPrompt env))).
  { unfold same_form. simpl. auto 6. }
  cbv zeta.
  destruct (negb (truthy (option_map trim (seen_goalPrompt env)))
            || negb (regex_test goal_regex
                       (text (option_map trim (seen_goalPrompt env))))).
  { unfold same_form. simpl. auto 6. }
  unfold_async.
  destruct (seen_deployedBoardAPI env); simpl;
    [|unfold same_form; simpl; auto 6].
  destruct (getWalletAddress_result w) as [ws|e]; simpl;
    [|unfold same_form; simpl; auto 6].
  destruct (post_result w) as [[]|e]; unfold same_form; simpl; auto 6.
Qed.

Lemma onSendToken_same_form (api : option DeployedBBoardAPI) (w : World)
    (c : Cells) :
  same_form c (fst (run (onSendToken api w) c)).
Proof.
  unfold run, onSendToken. unfold_async.
  destruct api; simpl; [|unfold same_form; simpl; auto 6].
  destruct (build_result w) as [wallet|e]; simpl;
    [|unfold same_form; simpl; auto 6].
  destruct (start_result w) as [[]|e]; simpl;
    [|unfold same_form; simpl; auto 6].
  destruct (contribute_result w) as [[]|e]; unfold same_form; simpl; auto 6.
Qed.

Lemma onDeleteMessage_same_form (api : option DeployedBBoardAPI) (w : World)
    (c : Cells) :
  same_form c (fst (run (onDeleteMessage api w) c)).
Proof.
  unfold run, onDeleteMessage. unfold_async.
  destruct api; simpl; [|unfold same_form; simpl; auto 6].
  destruct (takeDown_result w) as [[]|e]; unfold same_form; simpl; auto 6.
Qed.

Lemma click_same_form (b : Board) (e : Event) :
  is_click e = true -> same_form (cells b) (cells (step b e)).
Proof.
  intros H. rewrite cells_step.
  destruct e as [d|s|v|v|v|w|a w|w|w|w|w]; try discriminate H; cbn [react].
  - apply same_form_refl.
  - apply same_form_refl.
  - unfold run, onCopyContractAddress. unfold_async.
    destruct (deployedBoardAPI (cells b)); apply same_form_refl.
  - apply onSendToken_same_form.
  - apply onPostMessage_same_form.
  - apply onDeleteMessage_same_form.
Qed.

(** X9: no click changes what the user has typed, nor the deployment, the API
    handle or the snapshot: a click writes at most the error message and the
    working flag. In particular the prompts are not emptied after a post. *)
Theorem clicks_keep_the_form (b : Board) (e : Event) :
  is_click e = true ->
  titlePrompt (cells (step b e)) = titlePrompt (cells b)
  /\ messagePrompt (cells (step b e)) = messagePrompt (cells b)
  /\ goalPrompt (cells (step b e)) = goalPrompt (cells b)
  /\ boardDeployment (cells (step b e)) = boardDeployment (cells b)
  /\ deployedBoardAPI (cells (step b e)) = deployedBoardAPI (cells b)
  /\ boardState (cells (step b e)) = boardState (cells b).
Proof.
  intros H. destruct (click_same_form b e H) as (Hd & Ha & Hs & Hm & Ht & Hg).
  auto 6.
Qed.

Lemma clicks_keep_the_form_witness :
  let b := steps (mount true)
             [DeploymentEmits (Deployed api0); StateEmits vacant_snapshot;
              TitleInput (js "Roof repair"); GoalInput (js "1500");
              MessageInput (js "Help us")] in
  titlePrompt (cells (step b (ClickPostMessage all_resolve)))
  = titlePrompt (cells b)
  /\ messagePrompt (cells (step b (ClickPostMessage all_resolve)))
     = messagePrompt (cells b)
  /\ goalPrompt (cells (step b (ClickPostMessage all_resolve)))
     = goalPrompt (cells b)
  /\ boardDeployment (cells (step b (ClickPostMessage all_resolve)))
     = boardDeployment (cells b)
  /\ deployedBoardAPI (cells (step b (ClickPostMessage all_resolve)))
     = deployedBoardAPI (cells b)
  /\ boardState (cells (step b (ClickPostMessage all_resolve)))
     = boardState (cells b).
Proof.
  apply (@clicks_keep_the_form
           (steps (mount true)
              [DeploymentEmits (Deployed api0); StateEmits vacant_snapshot;
               TitleInput (js "Roof repair"); GoalInput (js "1500");
               MessageInput (js "Help us")])
           (ClickPostMessage all_resolve)).
  reflexivity.
Defined.

(** X10: once the component has an API handle or a snapshot it never loses
    it: the handle changes only when the deployment stream emits [deployed],
    the snapshot only when the state stream emits. A later [in-progress] or
    [failed] emission leaves both, and with them the buttons, in place. *)
Theorem handle_and_snapshot_persist (b : Board) (e : Event) :
  deployedBoardAPI (cells (step b e))
  = match e with
    | DeploymentEmits (Deployed api) => Some api
    | _ => deployedBoardAPI (cells b)
    end
  /\ boardState (cells (step b e))
     = match e with
       | StateEmits s => Some s
       | _ => boardState (cells b)
       end.
Proof.
  destruct (is_click e) eqn:C.
  - destruct (click_same_form b e C) as (_ & Ha & Hs & _).
    destruct e; try discriminate C; auto.
  - rewrite cells_step.
    destruct e as [d|s|v|v|v|w|a w|w|w|w|w]; try discriminate C; cbn [react];
      try (split; reflexivity).
    destruct d; split; reflexivity.
Qed.

(** ** The callback behind the post button *)

Lemma same_dependencies_capture (c : Cells) :
  same_dependencies (capture c) c = true.
Proof.
  unfold same_dependencies, capture. cbn [seen_deployedBoardAPI seen_messagePrompt].
  apply andb_true_intro. split.
  - apply (option_eqb_eq _ _ _ DeployedBBoardAPI_eqb_eq). reflexivity.
  - apply (option_eqb_eq _ _ _ jsstring_eqb_eq). reflexivity.
Qed.

Lemma in_sync_rerender (b : Board) (c : Cells) : in_sync (rerender b c).
Proof.
  unfold in_sync, rerender. cbn [onPostMessage_closure cells].
  destruct (same_dependencies (onPostMessage_closure b) c) eqn:E.
  - exact E.
  - apply same_dependencies_capture.
Qed.

Lemma in_sync_steps (stream : bool) (es : list Event) :
  in_sync (steps (mount stream) es).
Proof.
  induction es as [|e es _] using rev_ind.
  - apply same_dependencies_capture.
  - unfold steps. rewrite fold_left_app. apply in_sync_rerender.
Qed.

Lemma in_sync_seen (b : Board) :
  in_sync b ->
  seen_deployedBoardAPI (onPostMessage_closure b) = deployedBoardAPI (cells b)
  /\ seen_messagePrompt (onPostMessage_closure b) = messagePrompt (cells b).
Proof.
  unfold in_sync, same_dependencies. intros H. apply andb_prop in H.
  destruct H as [Ha Hm].
  apply (option_eqb_eq _ _ _ DeployedBBoardAPI_eqb_eq) in Ha.
  apply (option_eqb_eq _ _ _ jsstring_eqb_eq) in Hm. auto.
Qed.

(** X11: whenever the post button can be clicked, the callback behind it has
    an API handle, the current one, and a message that is not empty, the
    current one. So a click on it never runs without a handle, and when it
    answers with the fill-in-all-fields text it is the title or the goal, as
    the callback sees them, that is missing. *)
Theorem post_click_sees_handle_and_message (stream : bool) (es : list Event)
    (w : World) :
  let b := steps (mount stream) es in
  enabled b (ClickPostMessage w) = true ->
  (exists api, seen_deployedBoardAPI (onPostMessage_closure b) = Some api
               /\ deployedBoardAPI (cells b) = Some api)
  /\ seen_messagePrompt (onPostMessage_closure b) = messagePrompt (cells b)
  /\ truthy (seen_messagePrompt (onPostMessage_closure b)) = true.
Proof.
  intros b He.
  destruct (in_sync_seen (in_sync_steps stream es)) as [Ha Hm].
  fold b in Ha, Hm.
  unfold enabled, render in He. cbn [postMessageEnabled] in He.
  apply andb_prop in He. destruct He as [He Hp].
  apply andb_prop in He. destruct He as [_ Hapi].
  unfold postMessage_disabled in Hp. apply negb_true_iff in Hp.
  apply orb_false_elim in Hp. destruct Hp as [_ Hp].
  apply negb_false_iff in Hp.
  rewrite Ha, Hm. split; [|split; [reflexivity|exact Hp]].
  destruct (deployedBoardAPI (cells b)) as [api|]; [|discriminate Hapi].
  exists api. auto.
Qed.

Lemma post_click_sees_handle_and_message_witness :
  let b := steps (mount true)
             [DeploymentEmits (Deployed api0); StateEmits vacant_snapshot;
              MessageInput (js "Help us")] in
  (exists api, seen_deployedBoardAPI (onPostMessage_closure b) = Some api
               /\ deployedBoardAPI (cells b) = Some api)
  /\ seen_messagePrompt (onPostMessage_closure b) = messagePrompt (cells b)
  /\ truthy (seen_messagePrompt (onPostMessage_closure b)) = true.
Proof.
  apply (@post_click_sees_handle_and_message true
           [DeploymentEmits (Deployed api0); StateEmits vacant_snapshot;
            MessageInput (js "Help us")]
           all_resolve).
  reflexivity.
Defined.

Lemma same_dependencies_title (env : PostClosure) (v : jsstring) (c : Cells) :
  same_dependencies env (set_titlePrompt v c) = same_dependencies env c.
Proof. reflexivity. Qed.

Lemma same_dependencies_goal (env : PostClosure) (v : jsstring) (c : Cells) :
  same_dependencies env (set_goalPrompt v c) = same_dependencies env c.
Proof. reflexivity. Qed.

(** X12: an edit of the title or of the goal does not renew the post
    callback, which lists neither among its dependencies: after the edit the
    callback is the one from before, and a click on the post button makes the
    calls it would have made before the edit. *)
Theorem title_and_goal_edits_are_not_seen (stream : bool)
    (es : list Event) (v : jsstring) (w : World) :
  let b := steps (mount stream) es in
  onPostMessage_closure (step b (TitleInput v)) = onPostMessage_closure b
  /\ onPostMessage_closure (step b (GoalInput v)) = onPostMessage_closure b
  /\ calls (snd (react (step b (TitleInput v)) (ClickPostMessage w)))
     = calls (snd (react b (ClickPostMessage w)))
  /\ calls (snd (react (step b (GoalInput v)) (ClickPostMessage w)))
     = calls (snd (react b (ClickPostMessage w))).
Proof.
  intros b.
  assert (S := in_sync_steps stream es). fold b in S. unfold in_sync in S.
  assert (Et : onPostMessage_closure (step b (TitleInput v))
               = onPostMessage_closure b).
  { unfold step, rerender. cbn [react fst onPostMessage_closure].
    rewrite same_dependencies_title, S. reflexivity. }
  assert (Eg : onPostMessage_closure (step b (GoalInput v))
               = onPostMessage_closure b).
  { unfold step, rerender. cbn [react fst onPostMessage_closure].
    rewrite same_dependencies_goal, S. reflexivity. }
  assert (F : forall env c c',
             calls (snd (run (onPostMessage env w) c))
             = calls (snd (run (onPostMessage env w) c'))).
  { intros env c c'. unfold run, onPostMessage, calls.
    destruct (negb (truthy (seen_titlePrompt env))
              || negb (truthy (seen_messagePrompt env))
              || negb (truthy (seen_goalPrompt env))); [reflexivity|].
    cbv zeta.
    destruct (negb (truthy (option_map trim (seen_goalPrompt env)))
              || negb (regex_test goal_regex
                         (text (option_map trim (seen_goalPrompt env)))));
      [reflexivity|].
    unfold_async.
    destruct (seen_deployedBoardAPI env); simpl; [|reflexivity].
    destruct (getWalletAddress_result w) as [ws|e]; simpl; [|reflexivity].
    destruct (post_result w) as [[]|e]; reflexivity. }
  repeat split; try assumption.
  - cbn [react]. rewrite Et. apply F.
  - cbn [react]. rewrite Eg. apply F.
Qed.

(** X13: an edit of the message that changes it does renew the post callback,
    which from then on sees the title, the message and the goal as they are at
    that moment. *)
Theorem message_edit_renews_callback (b : Board) (v : jsstring) :
  messagePrompt (cells b) <> Some v ->
  in_sync b ->
  onPostMessage_closure (step b (MessageInput v))
  = mkPostClosure (titlePrompt (cells b)) (Some v) (goalPrompt (cells b))
      (deployedBoardAPI (cells b)).
Proof.
  intros Hne S. destruct (in_sync_seen S) as [_ Hm].
  unfold step, rerender. cbn [react fst onPostMessage_closure].
  destruct (same_dependencies (onPostMessage_closure b)
              (set_messagePrompt v (cells b))) eqn:E; [|reflexivity].
  exfalso. unfold same_dependencies in E. apply andb_prop in E.
  destruct E as [_ E].
  apply (option_eqb_eq _ _ _ jsstring_eqb_eq) in E.
  cbn [messagePrompt set_messagePrompt] in E. congruence.
Qed.

Lemma message_edit_renews_callback_witness :
  let b := steps (mount true)
             [DeploymentEmits (Deployed api0); StateEmits vacant_snapshot;
              MessageInput (js "Help"); TitleInput (js "Roof repair")] in
  onPostMessage_closure (step b (MessageInput (js "Help us")))
  = mkPostClosure (titlePrompt (cells b)) (Some (js "Help us"))
      (goalPrompt (cells b)) (deployedBoardAPI (cells b)).
Proof.
  apply (@message_edit_renews_callback
           (steps (mount true)
              [DeploymentEmits (Deployed api0); StateEmits vacant_snapshot;
               MessageInput (js "Help"); TitleInput (js "Roof repair")])
           (js "Help us")).
  - vm_compute. discriminate.
  - vm_compute. reflexivity.
Defined.

(** ** The buttons *)

Lemma untyped_step (b : Board) (e : Event) :
  untyped_without_snapshot b -> enabled b e = true ->
  untyped_without_snapshot (step b e).
Proof.
  intros Inv He. unfold untyped_without_snapshot in *.
  destruct (is_click e) eqn:C.
  - destruct (click_same_form b e C) as (_ & _ & Hs & Hm & Ht & Hg).
    rewrite Hs, Hm, Ht, Hg. exact Inv.
  - rewrite cells_step.
    destruct e as [d|s|v|v|v|w|a w|w|w|w|w]; try discriminate C;
      cbn [react fst].
    + destruct d; exact Inv.
    + discriminate.
    + intros Hn. cbn [boardState set_titlePrompt] in Hn.
      unfold enabled, render in He. cbn [promptFields] in He.
      rewrite Hn, andb_false_r in He. discriminate He.
    + intros Hn. cbn [boardState set_goalPrompt] in Hn.
      unfold enabled, render in He. cbn [promptFields] in He.
      rewrite Hn, andb_false_r in He. discriminate He.
    + intros Hn. cbn [boardState set_messagePrompt] in Hn.
      unfold enabled, render in He. cbn [promptFields] in He.
      rewrite Hn, andb_false_r in He. discriminate He.
Qed.

Lemma untyped_steps (es : list Event) (b : Board) :
  untyped_without_snapshot b -> feasible b es = true ->
  untyped_without_snapshot (steps b es).
Proof.
  revert b. induction es as [|e es IH]; intros b Inv Hf.
  - exact Inv.
  - cbn [feasible] in Hf. apply andb_prop in Hf. destruct Hf as [He Hf].
    apply IH; [apply untyped_step; assumption|exact Hf].
Qed.

(** X14: in every state that the component can reach, the take-down button
    and the post or send-tokens button are never enabled together. *)
Theorem take_down_excludes_post_and_send (stream : bool) (es : list Event) :
  feasible (mount stream) es = true ->
  let b := steps (mount stream) es in
  takeDownEnabled (render b) = true ->
  postMessageEnabled (render b) = false
  /\ sendTokensEnabled (render b) = false.
Proof.
  intros Hf b Ht.
  assert (Inv : untyped_without_snapshot b).
  { apply untyped_steps; [|exact Hf]. intros _. simpl. auto. }
  unfold render in *.
  cbn [takeDownEnabled postMessageEnabled sendTokensEnabled] in *.
  apply andb_prop in Ht. destruct Ht as [_ Ht]. apply negb_true_iff in Ht.
  unfold takeDown_disabled, postMessage_disabled, sendTokens_disabled,
    state_is in *.
  destruct (boardState (cells b)) as [s|] eqn:Es.
  - destruct (Derived.state s); simpl in *; [discriminate Ht|].
    rewrite !andb_false_r. auto.
  - destruct (Inv Es) as (Hm & _ & Hg). rewrite Hm, Hg. simpl.
    rewrite !andb_false_r. auto.
Qed.

Lemma take_down_excludes_post_and_send_witness :
  let b := steps (mount true)
             [DeploymentEmits InProgress; DeploymentEmits (Deployed api0);
              StateEmits vacant_snapshot; MessageInput (js "Help us");
              GoalInput (js "5");
              StateEmits (Derived.mk OCCUPIED (js "T") 100%Z (js "M") true)] in
  postMessageEnabled (render b) = false
  /\ sendTokensEnabled (render b) = false.
Proof.
  apply (@take_down_excludes_post_and_send true
           [DeploymentEmits InProgress; DeploymentEmits (Deployed api0);
            StateEmits vacant_snapshot; MessageInput (js "Help us");
            GoalInput (js "5");
            StateEmits (Derived.mk OCCUPIED (js "T") 100%Z (js "M") true)]).
  - vm_compute. reflexivity.
  - vm_compute. reflexivity.
Defined.

(** X15: when the card shows the closed lock, the campaign belongs to someone
    else and none of the three action buttons is enabled. *)
Theorem closed_lock_means_no_action (b : Board) :
  avatar (render b) = LockIcon ->
  (exists s, boardState (cells b) = Some s
             /\ Derived.state s = OCCUPIED /\ Derived.isOwner s = false)
  /\ takeDownEnabled (render b) = false
  /\ postMessageEnabled (render b) = false
  /\ sendTokensEnabled (render b) = false.
Proof.
  unfold render.
  cbn [avatar takeDownEnabled postMessageEnabled sendTokensEnabled].
  unfold takeDown_disabled, postMessage_disabled, sendTokens_disabled,
    state_is.
  destruct (boardState (cells b)) as [s|]; [|discriminate].
  destruct (Derived.state s) eqn:Es, (Derived.isOwner s) eqn:Eo; simpl;
    intros H; try discriminate H.
  rewrite !andb_false_r. split; [|auto]. exists s. auto.
Qed.

Lemma closed_lock_means_no_action_witness :
  let b := steps (mount true)
             [DeploymentEmits (Deployed api0);
              StateEmits (Derived.mk OCCUPIED (js "T") 100%Z (js "M") false)] in
  (exists s, boardState (cells b) = Some s
             /\ Derived.state s = OCCUPIED /\ Derived.isOwner s = false)
  /\ takeDownEnabled (render b) = false
  /\ postMessageEnabled (render b) = false
  /\ sendTokensEnabled (render b) = false.
Proof.
  apply (@closed_lock_means_no_action
           (steps (mount true)
              [DeploymentEmits (Deployed api0);
               StateEmits (Derived.mk OCCUPIED (js "T") 100%Z (js "M") false)])).
  reflexivity.
Defined.

(** ** The shortened address, in full *)

(** X16: for a contract address that is not empty the shortener is decided by
    the shape of the address: with at least 22 code units, hex digits in the
    first 14 and last 8 places and no line terminator between them, whatever
    else is there, it shows places 7 to 14, three dots and the last 8 places;
    otherwise it shows the whole address. Either way the text starts with
    [0x]. *)
Theorem short_address_by_shape (s : jsstring) :
  s <> [] ->
  toShortFormatContractAddress (Some s)
  = Some (js "0x"
          ++ if address_shape s
             then firstn 8 (skipn 6 s) ++ js "..."
                  ++ skipn (List.length s - 8) s
             else s).
Proof.
  intros Hs. destruct (address_shape s) eqn:A.
  - unfold address_shape in A.
    apply andb_prop in A. destruct A as [A H8].
    apply andb_prop in A. destruct A as [A Hmid].
    apply andb_prop in A. destruct A as [Hlen H14].
    apply Nat.leb_le in Hlen.
    apply short_address_of_match; assumption.
  - assert (E : exec_at address_regex s 0 = None).
    { destruct (exec_at address_regex s 0) as [r|] eqn:E; [|reflexivity].
      apply address_regex_match_shape in E.
      destruct E as (Hlen & H14 & Hmid & H8).
      apply Nat.leb_le in Hlen.
      unfold address_shape in A. rewrite Hlen, H14, Hmid, H8 in A.
      discriminate A. }
    unfold toShortFormatContractAddress.
    destruct s as [|c s]; [contradiction|]. cbn [truthy].
    rewrite replace_all_unmatched by exact E. reflexivity.
Qed.

Lemma short_address_by_shape_witness :
  toShortFormatContractAddress (Some (js "0200E1b2c3d4a5--not hex--6d7e8f90"))
  = Some (js "0xb2c3d4a5...6d7e8f90").
Proof.
  apply (@short_address_by_shape (js "0200E1b2c3d4a5--not hex--6d7e8f90")).
  discriminate.
Defined.

(** ** What the component calls, and when *)

(** X17: a component mounted on a deployment stream calls nobody, neither a
    collaborator nor the console, for as long as the stream has emitted nothing
    but [in-progress]. *)
Theorem no_call_before_deployment (es : list Event) :
  feasible (mount true) es = true ->
  forallb keeps_deployment_pending es = true ->
  history (mount true) es = [].
Proof.
  assert (G : forall es b, awaiting b -> feasible b es = true ->
              forallb keeps_deployment_pending es = true ->
              history b es = []).
  { clear es. induction es as [|e es IH]; intros b Hb Hf Hp; [reflexivity|].
    cbn [feasible forallb history] in *.
    apply andb_prop in Hf. destruct Hf as [He Hf].
    apply andb_prop in Hp. destruct Hp as [Hpe Hp].
    rewrite IH; [|apply awaiting_step; assumption|exact Hf|exact Hp].
    rewrite app_nil_r.
    destruct Hb as (Hs & Hw & Ha & Hbs & Hd).
    destruct e as [d|s|v|v|v|w|a w|w|w|w|w]; try reflexivity;
      unfold enabled, render in He;
      cbn [emptyCard copyButton sendTokensEnabled postMessageEnabled
             takeDownEnabled] in He;
      rewrite ?Hs, ?Ha in He; simpl in He; discriminate He. }
  apply G. exact awaiting_mount.
Qed.

Lemma no_call_before_deployment_witness :
  history (mount true)
    [DeploymentEmits InProgress; DeploymentEmits InProgress] = [].
Proof.
  apply (no_call_before_deployment
           [DeploymentEmits InProgress; DeploymentEmits InProgress]).
  - vm_compute. reflexivity.
  - vm_compute. reflexivity.
Defined.

Lemma empty_card_step (e : Event) :
  enabled (mount false) e = true ->
  step (mount false) e = mount false
  /\ calls (snd (react (mount false) e))
     = match e with
       | ClickCreate _ => [Resolve None]
       | ClickJoin contractAddress _ => [Resolve (Some contractAddress)]
       | _ => []
       end.
Proof.
  destruct e as [d|s|v|v|v|w|a w|w|w|w|w]; intros He;
    try (vm_compute in He; discriminate He); split; reflexivity.
Qed.

(** X18: a component without a deployment stream offers only to create or to
    join a board. Each such click makes one call, [resolve], without an
    address to create and with the address as it was given, unchecked, to
    join; the component itself does not change. *)
Theorem empty_card_only_resolves (es : list Event) :
  feasible (mount false) es = true ->
  steps (mount false) es = mount false
  /\ history (mount false) es
     = flat_map (fun e => match e with
                          | ClickCreate _ => [Resolve None]
                          | ClickJoin contractAddress _ =>
                              [Resolve (Some contractAddress)]
                          | _ => []
                          end) es.
Proof.
  induction es as [|e es IH]; intros Hf; [split; reflexivity|].
  cbn [feasible] in Hf. apply andb_prop in Hf. destruct Hf as [He Hf].
  destruct (empty_card_step e He) as [Es Ec].
  rewrite Es in Hf. destruct (IH Hf) as [IHs IHh].
  cbn [steps fold_left history flat_map]. rewrite Es, Ec, IHh.
  split; [exact IHs|reflexivity].
Qed.

Lemma empty_card_only_resolves_witness :
  steps (mount false)
    [ClickJoin (js "not an address") all_resolve; ClickCreate all_resolve]
  = mount false
  /\ history (mount false)
       [ClickJoin (js "not an address") all_resolve; ClickCreate all_resolve]
     = [Resolve (Some (js "not an address")); Resolve None].
Proof.
  apply (empty_card_only_resolves
           [ClickJoin (js "not an address") all_resolve;
            ClickCreate all_resolve]).
  vm_compute. reflexivity.
Defined.

(** ** An error without text *)

(** X19: unlike a failed deployment, a failed take-down has no fallback text:
    when the rejection carries an empty message the error message becomes the
    empty string, and the error backdrop is closed, even if it was open
    before. *)
Theorem empty_rejection_closes_error_backdrop (b : Board) (w : World)
    (e : Thrown) (api : DeployedBBoardAPI) :
  deployedBoardAPI (cells b) = Some api ->
  takeDown_result w = Rejected e ->
  thrown_text e = [] ->
  errorMessage (cells (step b (ClickTakeDown w))) = Some []
  /\ errorBackdrop (render (step b (ClickTakeDown w))) = false.
Proof.
  intros Ha Hw He. unfold render. cbn [errorBackdrop].
  rewrite cells_step. cbn [react]. rewrite Ha.
  unfold run, onDeleteMessage. unfold_async. simpl. rewrite Hw. simpl.
  rewrite He. simpl. rewrite andb_false_r. auto.
Qed.

Lemma empty_rejection_closes_error_backdrop_witness :
  let b := steps (mount true)
             [DeploymentEmits (Deployed api0);
              DeploymentEmits (Failed (js "connection lost"))] in
  let w := mkWorld (Resolved (mkWalletState (js "addr"))) (Resolved tt)
             (Resolved 0) (Resolved tt) (Resolved tt)
             (Rejected (ErrorObject [])) (Resolved tt) (Resolved tt) in
  errorMessage (cells (step b (ClickTakeDown w))) = Some []
  /\ errorBackdrop (render (step b (ClickTakeDown w))) = false.
Proof.
  apply (@empty_rejection_closes_error_backdrop
           (steps (mount true)
              [DeploymentEmits (Deployed api0);
               DeploymentEmits (Failed (js "connection lost"))])
           (mkWorld (Resolved (mkWalletState (js "addr"))) (Resolved tt)
              (Resolved 0) (Resolved tt) (Resolved tt)
              (Rejected (ErrorObject [])) (Resolved tt) (Resolved tt))
           (ErrorObject []) api0).
  - reflexivity.
  - reflexivity.
  - reflexivity.
Defined.
